(** * Daily-bar ingestion pipeline: storage, fetcher, validator, scheduler

    A shallow embedding of [data_storage.py], [data_fetcher.py],
    [data_validator.py] and [main.py], and the properties of the
    specification that can be stated over it.

    Conventions of the embedding.
    - A Python call that may raise returns a [Result]; code that mutates an
      object in place and may raise runs in the monad [Py], whose state
      survives the exception, as a mutated dict or list does.
    - SQLite [REAL] values and Python floats are rationals ([Q]); SQL [NULL],
      Python [None] and [NaN] are one missing value.
    - Wall-clock readings ([CURRENT_TIMESTAMP], [datetime.now()]) are inputs:
      a clock gives the reading of each statement.
    - The data provider (akshare), the date and number parsers of pandas and
      [strftime] are library code, taken as parameters. *)

From Stdlib Require Import List String Ascii Bool Arith ZArith QArith Lia.
From Stdlib Require Import OrderedTypeEx Sorted Permutation.
Import ListNotations.
Open Scope string_scope.
Open Scope list_scope.
Open Scope nat_scope.

(** ** Exceptions and results *)

Inductive Exn : Type :=
| KeyError (key : string)   (* dict lookup of an absent key *)
| ValueError                (* range() with step 0 *)
| IntegrityError            (* sqlite3: NOT NULL constraint failed *)
| OperationalError          (* sqlite3: no such table, disk I/O error *)
| ProviderError             (* anything raised inside the data provider *)
| DateParseError            (* pandas.to_datetime on an unparsable value *)
| TypeError.                (* arithmetic on a value that is no number *)

Inductive Result (A : Type) : Type :=
| Ok (a : A)
| Raise (e : Exn).
Arguments Ok {A} a.
Arguments Raise {A} e.

Definition Timestamp := nat.

Definition bind_result {A B} (r : Result A) (k : A -> Result B) : Result B :=
  match r with
  | Ok a => k a
  | Raise e => Raise e
  end.

(** [try: r except Exception as e: h e] *)
Definition try_result {A} (r : Result A) (h : Exn -> Result A) : Result A :=
  match r with
  | Ok a => Ok a
  | Raise e => h e
  end.

(** Code that mutates an object of type [S] in place: the mutations made
    before an exception are still there when it is caught. *)
Definition Py (S A : Type) : Type := S -> S * Result A.

Definition ret {S A} (a : A) : Py S A := fun s => (s, Ok a).

Definition bind {S A B} (m : Py S A) (k : A -> Py S B) : Py S B :=
  fun s =>
    match m s with
    | (s', Ok a) => k a s'
    | (s', Raise e) => (s', Raise e)
    end.

Definition lift {S A} (r : Result A) : Py S A := fun s => (s, r).

Definition modify {S} (f : S -> S) : Py S unit := fun s => (f s, Ok tt).

Definition try_except {S A} (m : Py S A) (h : Exn -> Py S A) : Py S A :=
  fun s =>
    match m s with
    | (s', Ok a) => (s', Ok a)
    | (s', Raise e) => h e s'
    end.

Declare Scope py_scope.
Delimit Scope py_scope with py.
Notation "x <- m ;; k" := (bind m (fun x => k))
  (at level 61, m at next level, right associativity) : py_scope.
Notation "m ;; k" := (bind m (fun _ => k))
  (at level 61, right associativity) : py_scope.

Declare Scope result_scope.
Delimit Scope result_scope with result.
Notation "'let*' x := r 'in' k" := (bind_result r (fun x => k))
  (at level 61, x name, r at next level, right associativity) : result_scope.

(** ** String helpers of the Python code *)

(** [s.replace('-', '')] *)
Fixpoint remove_dashes (s : string) : string :=
  match s with
  | EmptyString => EmptyString
  | String c r =>
      if Ascii.eqb c "-"%char then remove_dashes r else String c (remove_dashes r)
  end.

(** The ASCII characters for which [str.isspace] holds. *)
Definition is_space (c : ascii) : bool :=
  let n := nat_of_ascii c in
  (n =? 32) || ((9 <=? n) && (n <=? 13)) || ((28 <=? n) && (n <=? 31)).

Fixpoint lstrip (s : string) : string :=
  match s with
  | EmptyString => EmptyString
  | String c r => if is_space c then lstrip r else s
  end.

Fixpoint rstrip (s : string) : string :=
  match s with
  | EmptyString => EmptyString
  | String c r =>
      match rstrip r with
      | EmptyString => if is_space c then EmptyString else String c EmptyString
      | r' => String c r'
      end
  end.

(** [s.strip()], for ASCII white space. *)
Definition strip (s : string) : string := rstrip (lstrip s).

(** ** The pandas fragment the pipeline uses *)

Module Pandas.

(** A cell: missing ([None], [NaN], [NaT]), a float, or a string. *)
Inductive Cell : Type :=
| NA
| Num (q : Q)
| Str (s : string).

Definition Series := list Cell.

(** A frame is column-major, as pandas stores it: the ordered columns with
    their names.  Every column of a frame has the length of its index. *)
Definition DataFrame := list (string * Series).

Definition isna (c : Cell) : bool :=
  match c with NA => true | _ => false end.

Definition columns (df : DataFrame) : list string := map fst df.

Definition nrows (df : DataFrame) : nat :=
  match df with
  | [] => 0
  | (_, s) :: _ => List.length s
  end.

(** [df.empty]: no column or no row. *)
Definition empty (df : DataFrame) : bool := nrows df =? 0.

(** [df[name]] *)
Fixpoint getcol (name : string) (df : DataFrame) : option Series :=
  match df with
  | [] => None
  | (n, s) :: rest => if String.eqb n name then Some s else getcol name rest
  end.

Definition has_column (name : string) (df : DataFrame) : bool :=
  match getcol name df with Some _ => true | None => false end.

(** [df[name] = s]: replaces the column in place, or appends a new one. *)
Fixpoint setcol (name : string) (s : Series) (df : DataFrame) : DataFrame :=
  match df with
  | [] => [(name, s)]
  | (n, s0) :: rest =>
      if String.eqb n name then (n, s) :: rest
      else (n, s0) :: setcol name s rest
  end.

(** [row.get(name, default)] on the [i]-th row of [iterrows()]. *)
Definition row_get (df : DataFrame) (i : nat) (name : string) (default : Cell) : Cell :=
  match getcol name df with
  | Some s => nth i s NA
  | None => default
  end.

(** The [i]-th row, over the frame's columns. *)
Definition row_at (df : DataFrame) (i : nat) : list Cell :=
  map (fun c => nth i (snd c) NA) df.

Definition to_rows (df : DataFrame) : list (list Cell) :=
  map (row_at df) (seq 0 (nrows df)).

(** [df.dropna()]: keeps the rows without a missing cell. *)
Definition row_complete (df : DataFrame) (i : nat) : bool :=
  forallb (fun c => negb (isna c)) (row_at df i).

Definition keep_rows (df : DataFrame) : list nat :=
  filter (row_complete df) (seq 0 (nrows df)).

Definition take (idx : list nat) (s : Series) : Series :=
  map (fun i => nth i s NA) idx.

Definition dropna (df : DataFrame) : DataFrame :=
  map (fun c => (fst c, take (keep_rows df) (snd c))) df.

(** [pd.concat(frames, ignore_index=True)]: the union of the column names
    in order of first appearance; a frame without a column contributes
    missing cells for its rows. *)
Fixpoint add_names (names : list string) (acc : list string) : list string :=
  match names with
  | [] => acc
  | n :: rest =>
      if existsb (String.eqb n) acc then add_names rest acc
      else add_names rest (acc ++ [n])
  end.

Definition all_names (frames : list DataFrame) : list string :=
  fold_left (fun acc df => add_names (columns df) acc) frames [].

Definition column_or_na (name : string) (df : DataFrame) : Series :=
  match getcol name df with
  | Some s => s
  | None => repeat NA (nrows df)
  end.

Definition concat (frames : list DataFrame) : DataFrame :=
  map (fun n => (n, flat_map (column_or_na n) frames)) (all_names frames).

End Pandas.

(** ** What the pipeline reads from outside *)

(** What [ak.stock_zh_a_hist] does on a call. *)
Inductive Reply : Type :=
| Raises (e : Exn)
| NoFrame
| Frame (df : Pandas.DataFrame).

Record Env : Type := mkEnv {
  (* [CURRENT_TIMESTAMP] at the [i]-th INSERT of a [save_data] call *)
  clock : nat -> Timestamp;
  (* [datetime.now()], as written to the backup flag file *)
  now : Timestamp;
  (* whether the COMMIT of the [k]-th chunk fails in the storage layer *)
  commit_fails : nat -> bool;
  (* the date of [datetime.now()], as a day number *)
  today : Z;
  (* [d.strftime('%Y%m%d')] *)
  strftime : Z -> string;
  (* [ak.stock_zh_a_hist(symbol, period="daily", start_date, end_date, adjust="")] *)
  stock_zh_a_hist : string -> string -> string -> Reply;
  (* [ak.stock_info_a_code_name()['code'].tolist()] *)
  stock_info_a_code_name : Result (list string);
  (* the date parser of [pd.to_datetime], on strings and on numbers *)
  parse_datetime : string -> option Z;
  datetime_of_number : Q -> Z;
  (* the number parser of [pd.to_numeric] *)
  parse_number : string -> option Q
}.

(** ** data_fetcher.py *)

Module DataFetcher.
Import Pandas.

(** What a multi-instrument loop does that the provider can observe: a
    call of [fetch_stock_daily_data] and a [time.sleep]. *)
Inductive Event : Type :=
| Fetch (stock_code start_date end_date : string)
| Sleep (seconds : Q).

Definition get_all_stock_codes (env : Env) : Result (list string) :=
  try_result (stock_info_a_code_name env) (fun e => Raise e).

Definition required_columns : list string :=
  ["日期"; "开盘"; "收盘"; "最高"; "最低"; "成交量"; "成交额"].

(** [df.columns = df.columns.str.strip()] *)
Definition strip_columns (df : DataFrame) : DataFrame :=
  map (fun c => (strip (fst c), snd c)) df.

(** The [try] block of [fetch_stock_daily_data]. *)
Definition fetch_body (env : Env) (stock_code : string)
  (start_date end_date : option string) : Result (option DataFrame) :=
  let end_date :=
    match end_date with Some d => d | None => strftime env (today env) end in
  let start_date :=
    match start_date with Some d => d | None => strftime env (today env - 365) end in
  match stock_zh_a_hist env stock_code
          (remove_dashes start_date) (remove_dashes end_date) with
  | Raises e => Raise e
  | NoFrame => Ok None
  | Frame df =>
      if empty df then Ok None
      else
        let df := strip_columns df in
        if forallb (fun col => has_column col df) required_columns
        then Ok (Some (setcol "股票代码" (repeat (Str stock_code) (nrows df)) df))
        else Ok None
  end.

(** [except Exception as e: logger.warning(...); return None] *)
Definition fetch_stock_daily_data (env : Env) (stock_code : string)
  (start_date end_date : option string) : Result (option DataFrame) :=
  try_result (fetch_body env stock_code start_date end_date)
             (fun _ => Ok None).

(** One turn of the loop of [fetch_all_stock_data]: the frames to append
    and the events, in order. *)
Definition fetch_one (env : Env) (start_date end_date : string) (delay : Q)
  (stock_code : string) : list DataFrame * list Event :=
  let call := Fetch stock_code start_date end_date in
  match fetch_stock_daily_data env stock_code (Some start_date) (Some end_date) with
  | Ok df =>
      let got :=
        match df with
        | Some d => if empty d then [] else [d]
        | None => []
        end in
      if Qle_bool delay 0 then (got, [call])
      else (got, [call; Sleep delay])
  | Raise _ => ([], [call])
  end.

Fixpoint fetch_loop (env : Env) (start_date end_date : string) (delay : Q)
  (stock_codes : list string) : list DataFrame * list Event :=
  match stock_codes with
  | [] => ([], [])
  | stock_code :: rest =>
      let (got, evs) := fetch_one env start_date end_date delay stock_code in
      let (got', evs') := fetch_loop env start_date end_date delay rest in
      (got ++ got', evs ++ evs')
  end.

Definition fetch_all_stock_data (env : Env) (days : Z) (delay : Q)
  : Result DataFrame * list Event :=
  match get_all_stock_codes env with
  | Raise e => (Raise e, [])
  | Ok stock_codes =>
      let end_date := strftime env (today env) in
      let start_date := strftime env (today env - days) in
      let (all_data, evs) := fetch_loop env start_date end_date delay stock_codes in
      match all_data with
      | [] => (Ok [], evs)
      | _ :: _ => (Ok (concat all_data), evs)
      end
  end.

Definition column_mapping : list (string * string) :=
  [("日期", "trade_date"); ("股票代码", "ts_code"); ("开盘", "open");
   ("收盘", "close"); ("最高", "high"); ("最低", "low");
   ("成交量", "volume"); ("成交额", "amount")].

Definition numeric_columns : list string :=
  ["open"; "high"; "low"; "close"; "volume"; "amount"].

(** The renaming loop: [formatted_df[new_col] = df[old_col]] for the
    columns the frame has. *)
Definition rename_columns (df : DataFrame) : DataFrame :=
  fold_left
    (fun formatted_df m =>
       match getcol (fst m) df with
       | Some s => setcol (snd m) s formatted_df
       | None => formatted_df
       end)
    column_mapping [].

(** [pd.to_datetime(series)] with the default [errors='raise']: a missing
    value gives [NaT]; a value that does not parse raises. *)
Definition to_datetime_cell (env : Env) (c : Cell) : Result (option Z) :=
  match c with
  | NA => Ok None
  | Num q => Ok (Some (datetime_of_number env q))
  | Str s =>
      match parse_datetime env s with
      | Some d => Ok (Some d)
      | None => Raise DateParseError
      end
  end.

Fixpoint to_datetime (env : Env) (s : Series) : Result (list (option Z)) :=
  match s with
  | [] => Ok []
  | c :: rest =>
      (let* d := to_datetime_cell env c in
       let* ds := to_datetime env rest in
       Ok (d :: ds))%result
  end.

(** [.dt.strftime('%Y%m%d')]: [NaT] gives a missing value. *)
Definition dt_strftime (env : Env) (ds : list (option Z)) : Series :=
  map (fun d => match d with Some z => Str (strftime env z) | None => NA end) ds.

(** [pd.to_numeric(series, errors='coerce')] *)
Definition to_numeric_cell (env : Env) (c : Cell) : Cell :=
  match c with
  | NA => NA
  | Num q => Num q
  | Str s =>
      match parse_number env s with
      | Some q => Num q
      | None => NA
      end
  end.

Definition to_numeric (env : Env) (s : Series) : Series :=
  map (to_numeric_cell env) s.

Definition coerce_numeric (env : Env) (formatted_df : DataFrame) : DataFrame :=
  fold_left
    (fun acc col =>
       match getcol col acc with
       | Some s => setcol col (to_numeric env s) acc
       | None => acc
       end)
    numeric_columns formatted_df.

Definition format_data_for_storage (env : Env) (df : DataFrame) : Result DataFrame :=
  if empty df then Ok []
  else
    let formatted_df := rename_columns df in
    (let* formatted_df :=
       match getcol "trade_date" formatted_df with
       | Some s =>
           let* ds := to_datetime env s in
           Ok (setcol "trade_date" (dt_strftime env ds) formatted_df)
       | None => Ok formatted_df
       end in
     Ok (dropna (coerce_numeric env formatted_df)))%result.

End DataFetcher.

(** ** data_storage.py *)

Module DataStorage.
Import Pandas.

(** The tuple [save_data] builds from one frame row, in the order of the
    INSERT's placeholders. *)
Record DailyBar : Type := mkBar {
  bar_ts_code : option string;
  bar_trade_date : option string;
  bar_open : option Q;
  bar_high : option Q;
  bar_low : option Q;
  bar_close : option Q;
  bar_volume : option Q;
  bar_amount : option Q
}.

(** A row of [stock_daily].  [ts_code] and [trade_date] are [NOT NULL]. *)
Record Row : Type := mkRow {
  id : nat;
  ts_code : string;
  trade_date : string;
  open : option Q;
  high : option Q;
  low : option Q;
  close : option Q;
  volume : option Q;
  amount : option Q;
  created_at : Timestamp;
  updated_at : Timestamp
}.

(** The table with its AUTOINCREMENT counter (the largest id ever given). *)
Record Table : Type := mkTable {
  rows : list Row;
  last_id : nat
}.

(** The file at [DB_PATH]: absent, present without the table, or holding
    the table. *)
Inductive Database : Type :=
| NoFile
| NoTable
| StockDaily (t : Table).

(** The backup flag file: [None] when absent, else the timestamp and the
    record count of the last write (mode ['w'] truncates). *)
Record World : Type := mkWorld {
  database : Database;
  backup_flag : option (Timestamp * nat)
}.

Definition empty_table : Table := mkTable [] 0.

(** [sqlite3.connect] creates the file when it is absent. *)
Definition get_db_connection (d : Database) : Database :=
  match d with
  | NoFile => NoTable
  | _ => d
  end.

(** [CREATE TABLE IF NOT EXISTS]. *)
Definition init_database (d : Database) : Database :=
  match get_db_connection d with
  | StockDaily t => StockDaily t
  | _ => StockDaily empty_table
  end.

Definition check_database_exists (d : Database) : bool :=
  match d with NoFile => false | _ => true end.

Definition same_key (c d : string) (r : Row) : bool :=
  String.eqb (ts_code r) c && String.eqb (trade_date r) d.

(** One [INSERT OR REPLACE ... VALUES (?,?,?,?,?,?,?,?, CURRENT_TIMESTAMP)].
    A [NULL] in a [NOT NULL] column without default aborts the statement.
    Otherwise the rows that conflict on [UNIQUE(ts_code, trade_date)] are
    deleted and a new row is inserted: [id] from AUTOINCREMENT,
    [created_at] from its column default, [updated_at] from the statement. *)
Definition insert_or_replace (ts : Timestamp) (b : DailyBar) (t : Table) : Result Table :=
  match bar_ts_code b, bar_trade_date b with
  | Some c, Some d =>
      let new_id := S (last_id t) in
      Ok (mkTable
            (filter (fun r => negb (same_key c d r)) (rows t)
             ++ [mkRow new_id c d (bar_open b) (bar_high b) (bar_low b)
                   (bar_close b) (bar_volume b) (bar_amount b) ts ts])
            new_id)
  | _, _ => Raise IntegrityError
  end.

(** [cursor.executemany(insert_sql, batch)] inside the open transaction:
    the pending table after the statements that ran, and the outcome.
    [i] is the index of the batch's first record in the call. *)
Fixpoint executemany (clk : nat -> Timestamp) (i : nat) (batch : list DailyBar)
  (t : Table) : Table * Result unit :=
  match batch with
  | [] => (t, Ok tt)
  | b :: rest =>
      match insert_or_replace (clk i) b t with
      | Ok t' => executemany clk (S i) rest t'
      | Raise e => (t, Raise e)
      end
  end.

Definition cell_text (c : Cell) : option string :=
  match c with Str s => Some s | _ => None end.

Definition cell_real (c : Cell) : option Q :=
  match c with Num q => Some q | _ => None end.

(** The loop over [df.iterrows()].  The frames handed to [save_data] come
    from the formatter: their date and code columns hold strings and their
    numeric columns floats; a missing cell is bound as [NULL]. *)
Definition record_of_row (df : DataFrame) (i : nat) : DailyBar :=
  mkBar (cell_text (row_get df i "ts_code" (Str "")))
        (cell_text (row_get df i "trade_date" (Str "")))
        (cell_real (row_get df i "open" NA))
        (cell_real (row_get df i "high" NA))
        (cell_real (row_get df i "low" NA))
        (cell_real (row_get df i "close" NA))
        (cell_real (row_get df i "volume" NA))
        (cell_real (row_get df i "amount" NA)).

Definition prepare_records (df : DataFrame) : list DailyBar :=
  map (record_of_row df) (seq 0 (nrows df)).

(** [range(0, total, batch_size)] *)
Definition py_range (total : nat) (step : Z) : Result (list nat) :=
  if (step =? 0)%Z then Raise ValueError
  else if (step <? 0)%Z then Ok []
  else
    let s := Z.to_nat step in
    Ok (map (fun k => k * s) (seq 0 ((total + s - 1) / s))).

(** [records[i:i+batch_size]] for a positive [batch_size]. *)
Definition slice (records : list DailyBar) (i : nat) (size : nat) : list DailyBar :=
  firstn size (skipn i records).

(** The body of the [for] loop, over the remaining start offsets.  [t] is
    the committed table; [k] counts the chunks.  When a statement or the
    commit raises, the handler's [conn.rollback()] discards the pending
    table and the exception goes on to the caller. *)
Fixpoint save_chunks (env : Env) (records : list DailyBar) (size : nat)
  (starts : list nat) (k : nat) (t : Table) : Table * Result unit :=
  match starts with
  | [] => (t, Ok tt)
  | i :: rest =>
      match executemany (clock env) i (slice records i size) t with
      | (pending, Ok _) =>
          if commit_fails env k then (t, Raise OperationalError)
          else save_chunks env records size rest (S k) pending
      | (pending, Raise e) => (t, Raise e)
      end
  end.

(** [save_records] is [save_data] after the early return and the record
    preparation: the [try] block with its handlers. *)
Definition save_records (env : Env) (records : list DailyBar) (batch_size : Z)
  (w : World) : World * Result unit :=
  let conn := get_db_connection (database w) in
  match py_range (List.length records) batch_size with
  | Raise e => (mkWorld conn (backup_flag w), Raise e)
  | Ok starts =>
      match conn with
      | StockDaily t =>
          match save_chunks env records (Z.to_nat batch_size) starts 0 t with
          | (t', Ok _) =>
              (mkWorld (StockDaily t') (Some (now env, List.length records)), Ok tt)
          | (t', Raise e) => (mkWorld (StockDaily t') (backup_flag w), Raise e)
          end
      | _ =>
          match starts with
          | [] => (mkWorld conn (Some (now env, List.length records)), Ok tt)
          | _ :: _ => (mkWorld conn (backup_flag w), Raise OperationalError)
          end
      end
  end.

Definition save_data (env : Env) (df : DataFrame) (batch_size : Z)
  (w : World) : World * Result unit :=
  if empty df then (w, Ok tt)
  else save_records env (prepare_records df) batch_size w.

(** [SELECT MAX(trade_date) ... WHERE ts_code = ?] under the byte-wise
    collation; [None] for no row. *)
Definition sql_max (l : list string) : option string :=
  fold_left
    (fun acc s =>
       match acc with
       | None => Some s
       | Some m => if String.ltb m s then Some s else Some m
       end)
    l None.

(** The truth value of a Python string. *)
Definition truthy (s : string) : bool := negb (String.eqb s "").

Definition get_latest_date_for_stock (d : Database) (code : string)
  : Result (option string) :=
  match get_db_connection d with
  | StockDaily t =>
      let result :=
        sql_max (map trade_date
                   (filter (fun r => String.eqb (ts_code r) code) (rows t))) in
      match result with
      | Some latest => if truthy latest then Ok (Some latest) else Ok None
      | None => Ok None
      end
  | _ => Raise OperationalError
  end.

(** [SELECT DISTINCT ts_code ... ORDER BY ts_code] *)
Fixpoint insert_code (c : string) (l : list string) : list string :=
  match l with
  | [] => [c]
  | x :: rest =>
      match String.compare c x with
      | Lt => c :: l
      | Eq => l
      | Gt => x :: insert_code c rest
      end
  end.

Definition distinct_sorted (l : list string) : list string :=
  fold_right insert_code [] l.

Definition get_all_stock_codes_from_db (d : Database) : Result (list string) :=
  match get_db_connection d with
  | StockDaily t => Ok (distinct_sorted (map ts_code (rows t)))
  | _ => Raise OperationalError
  end.

(** The window decision inside the loop of [update_incremental_data]:
    the start of the fetch, or [None] for [continue]. *)
Definition fetch_start_for (latest_date : option string) (start_date : string)
  : option string :=
  match latest_date with
  | Some latest =>
      if truthy latest
      then if String.ltb latest start_date then Some latest else None
      else Some start_date
  | None => Some start_date
  end.

(** One turn of the loop, under its [try]/[except]/[continue]: the frames
    appended to [all_new_data] and the events. *)
Definition update_one (env : Env) (d : Database) (start_date end_date : string)
  (code : string) : list DataFrame * list DataFetcher.Event :=
  match get_latest_date_for_stock d code with
  | Raise _ => ([], [])
  | Ok latest_date =>
      match fetch_start_for latest_date start_date with
      | None => ([], [])
      | Some fetch_start =>
          let call := DataFetcher.Fetch code fetch_start end_date in
          match DataFetcher.fetch_stock_daily_data env code
                  (Some fetch_start) (Some end_date) with
          | Ok (Some df) =>
              if empty df then ([], [call])
              else
                match DataFetcher.format_data_for_storage env df with
                | Ok formatted_df =>
                    if empty formatted_df then ([], [call])
                    else ([formatted_df], [call])
                | Raise _ => ([], [call])
                end
          | _ => ([], [call])
          end
      end
  end.

Fixpoint update_loop (env : Env) (d : Database) (start_date end_date : string)
  (stock_codes : list string) : list DataFrame * list DataFetcher.Event :=
  match stock_codes with
  | [] => ([], [])
  | code :: rest =>
      let (got, evs) := update_one env d start_date end_date code in
      let (got', evs') := update_loop env d start_date end_date rest in
      (got ++ got', evs ++ evs')
  end.

(** [update_incremental_data(fetch_function, days)]: the world after, the
    returned flag or the exception that leaves the function, and the
    events of its loop.  The [fetch_function] argument is not used by
    the code. *)
Definition update_incremental_data (env : Env) (days : Z) (w : World)
  : World * Result bool * list DataFetcher.Event :=
  if negb (check_database_exists (database w)) then (w, Ok false, [])
  else
    match get_all_stock_codes_from_db (database w) with
    | Raise e => (w, Raise e, [])
    | Ok [] => (w, Ok false, [])
    | Ok stock_codes =>
        let end_date := strftime env (today env) in
        let start_date := strftime env (today env - days) in
        let (all_new_data, evs) :=
          update_loop env (database w) start_date end_date stock_codes in
        match all_new_data with
        | [] => (w, Ok false, evs)
        | _ :: _ =>
            let new_data_df := concat all_new_data in
            match save_data env new_data_df 1000 w with
            | (w', Ok _) => (w', Ok true, evs)
            | (w', Raise e) => (w', Raise e, evs)
            end
        end
    end.

(** [check_data_exists]: [SELECT COUNT( * )] on the table, when the file is
    there. *)
Definition check_data_exists (d : Database) : Result bool :=
  if negb (check_database_exists d) then Ok false
  else
    match get_db_connection d with
    | StockDaily t => Ok (0 <? List.length (rows t))
    | _ => Raise OperationalError
    end.

(** [DELETE FROM stock_daily]: the rows go, the AUTOINCREMENT counter
    stays. *)
Definition delete_all (t : Table) : Table := mkTable [] (last_id t).

(** [restore_all_data(fetch_function)]: the purge, then the full fetch with
    [days=365, delay=0.1], the formatter and [save_data].  The
    [fetch_function] argument is not used by the code. *)
Definition restore_all_data (env : Env) (w : World)
  : World * Result bool * list DataFetcher.Event :=
  let purged : Result World :=
    if check_database_exists (database w) then
      match get_db_connection (database w) with
      | StockDaily t => Ok (mkWorld (StockDaily (delete_all t)) (backup_flag w))
      | _ => Raise OperationalError
      end
    else Ok w in
  match purged with
  | Raise e => (w, Raise e, [])
  | Ok w1 =>
      match DataFetcher.fetch_all_stock_data env 365 (1 # 10) with
      | (Raise e, evs) => (w1, Raise e, evs)
      | (Ok all_data, evs) =>
          if empty all_data then (w1, Ok false, evs)
          else
            match DataFetcher.format_data_for_storage env all_data with
            | Raise e => (w1, Raise e, evs)
            | Ok formatted_data =>
                match save_data env formatted_data 1000 w1 with
                | (w2, Ok _) => (w2, Ok true, evs)
                | (w2, Raise e) => (w2, Raise e, evs)
                end
            end
      end
  end.

End DataStorage.

(** ** data_validator.py *)

Module DataValidator.
Import DataStorage.

(** The messages of a report.  The code writes them as text and marks the
    blocking ones with a tag in the text; here each message is a
    constructor with the number it reports, and [is_severe] is the test
    ['严重' in issue]: the tag stands in the two messages below and in no
    other (a decimal number does not contain it). *)
Inductive Message : Type :=
| DatabaseFileMissing
| TableMissing
| NoData
| NullKeys (n : nat)
| DuplicateGroups (n : nat)
| BadDateFormat (n : nat)
| NonPositivePrice (n : nat)
| HighBelowLow (n : nat)
| PriceOutOfRange (n : nat)
| NegativeVolume (n : nat)
| NegativeAmount (n : nat)
| FewRecords (n : nat)
| FutureDates (n : nat)
| CheckFailed (e : Exn).

Definition is_severe (issue : Message) : bool :=
  match issue with
  | NonPositivePrice _ | HighBelowLow _ => true
  | _ => false
  end.

(** The values of the statistics dict. *)
Inductive StatValue : Type :=
| SInt (n : nat)
| SFloat (q : Q)
| SRange (start finish : option string).

(** A Python dict with string keys, in insertion order. *)
Definition Dict := list (string * StatValue).

(** [d[k] = v] *)
Fixpoint dict_set (k : string) (v : StatValue) (d : Dict) : Dict :=
  match d with
  | [] => [(k, v)]
  | (k0, v0) :: rest =>
      if String.eqb k0 k then (k0, v) :: rest
      else (k0, v0) :: dict_set k v rest
  end.

(** [d[k]], which raises [KeyError] for an absent key. *)
Fixpoint dict_get (k : string) (d : Dict) : Result StatValue :=
  match d with
  | [] => Raise (KeyError k)
  | (k0, v0) :: rest => if String.eqb k0 k then Ok v0 else dict_get k rest
  end.

(** [d.update(other)] *)
Definition dict_update (d other : Dict) : Dict :=
  fold_left (fun acc kv => dict_set (fst kv) (snd kv) acc) other d.

(** A number out of a dict value, for [/] and [>]. *)
Definition number_of (v : StatValue) : Result Q :=
  match v with
  | SInt n => Ok (inject_Z (Z.of_nat n))
  | SFloat q => Ok q
  | SRange _ _ => Raise TypeError
  end.

Record Report : Type := mkReport {
  is_valid : bool;
  errors : list Message;
  warnings : list Message;
  statistics : Dict
}.

(** *** SQL conditions, with the three truth values of SQL *)

Definition sql_cmp (test : Q -> Q -> bool) (x : option Q) (q : Q) : option bool :=
  match x with
  | Some v => Some (test v q)
  | None => None
  end.

Definition Qlt_bool (x y : Q) : bool := negb (Qle_bool y x).

Definition sql_le := sql_cmp Qle_bool.
Definition sql_lt := sql_cmp Qlt_bool.
Definition sql_gt := sql_cmp (fun v q => Qlt_bool q v).

Definition sql_lt2 (x y : option Q) : option bool :=
  match x, y with
  | Some a, Some b => Some (Qlt_bool a b)
  | _, _ => None
  end.

Definition sql_or (a b : option bool) : option bool :=
  match a, b with
  | Some true, _ | _, Some true => Some true
  | Some false, Some false => Some false
  | _, _ => None
  end.

(** A row is selected when its WHERE condition is true. *)
Definition sql_where (c : option bool) : bool :=
  match c with Some true => true | _ => false end.

Definition any_price (cond : option Q -> option bool) (r : Row) : option bool :=
  sql_or (sql_or (sql_or (cond (open r)) (cond (high r))) (cond (low r)))
         (cond (close r)).

Definition count_where (p : Row -> bool) (t : Table) : nat :=
  List.length (filter p (rows t)).

Definition key_eq_dec (a b : string * string) : {a = b} + {a <> b}.
Proof. decide equality; apply string_dec. Defined.

Definition row_key (r : Row) : string * string := (ts_code r, trade_date r).

Definition is_digit (c : ascii) : bool :=
  let n := nat_of_ascii c in (48 <=? n) && (n <=? 57).

(** [trade_date GLOB '[0-9]' x 8] *)
Definition glob_8_digits (s : string) : bool :=
  (String.length s =? 8) && forallb is_digit (list_ascii_of_string s).

Definition some_if (b : bool) (m : Message) : list Message :=
  if b then [m] else [].

(** *** The checks *)

Definition check_data_integrity (t : Table) : Result (list Message) :=
  (* ts_code IS NULL OR trade_date IS NULL: both columns are NOT NULL *)
  let null_count := count_where (fun _ => false) t in
  let keys := map row_key (rows t) in
  let duplicates :=
    filter (fun k => 1 <? count_occ key_eq_dec keys k) (nodup key_eq_dec keys) in
  let invalid_date_count :=
    count_where
      (fun r => negb (String.length (trade_date r) =? 8)
                || negb (glob_8_digits (trade_date r))) t in
  Ok (some_if (0 <? null_count) (NullKeys null_count)
      ++ some_if (negb (List.length duplicates =? 0))
                 (DuplicateGroups (List.length duplicates))
      ++ some_if (0 <? invalid_date_count) (BadDateFormat invalid_date_count)).

Definition check_data_correctness (t : Table) : Result (list Message) :=
  let invalid_price_count :=
    count_where (fun r => sql_where (any_price (fun x => sql_le x 0) r)) t in
  let invalid_range_count :=
    count_where (fun r => sql_where (sql_lt2 (high r) (low r))) t in
  let extreme_price_count :=
    count_where
      (fun r => sql_where
                  (sql_or (any_price (fun x => sql_gt x (10000 # 1)) r)
                          (any_price (fun x => sql_lt x (1 # 100)) r))) t in
  let invalid_volume_count :=
    count_where (fun r => sql_where (sql_lt (volume r) 0)) t in
  let invalid_amount_count :=
    count_where (fun r => sql_where (sql_lt (amount r) 0)) t in
  Ok (some_if (0 <? invalid_price_count) (NonPositivePrice invalid_price_count)
      ++ some_if (0 <? invalid_range_count) (HighBelowLow invalid_range_count)
      ++ some_if (0 <? extreme_price_count) (PriceOutOfRange extreme_price_count)
      ++ some_if (0 <? invalid_volume_count) (NegativeVolume invalid_volume_count)
      ++ some_if (0 <? invalid_amount_count) (NegativeAmount invalid_amount_count)).

Definition check_data_consistency (env : Env) (t : Table) : Result (list Message) :=
  let codes := map ts_code (rows t) in
  let low_record_stocks :=
    filter (fun c => count_occ string_dec codes c <? 10) (nodup string_dec codes) in
  let today := strftime env (today env) in
  let future_date_count :=
    count_where (fun r => String.ltb today (trade_date r)) t in
  Ok (some_if (negb (List.length low_record_stocks =? 0))
              (FewRecords (List.length low_record_stocks))
      ++ some_if (0 <? future_date_count) (FutureDates future_date_count)).

Definition sql_min (l : list string) : option string :=
  fold_left
    (fun acc s =>
       match acc with
       | None => Some s
       | Some m => if String.ltb s m then Some s else Some m
       end)
    l None.

Definition all_present (r : Row) : bool :=
  match open r, high r, low r, close r, volume r, amount r with
  | Some _, Some _, Some _, Some _, Some _, Some _ => true
  | _, _, _, _, _, _ => false
  end.

(** [get_detailed_statistics]: [stats] is the function's own dict. *)
Definition get_detailed_statistics (t : Table) : Result Dict :=
  let stats : Dict := [] in
  let stats :=
    dict_set "stock_count"
      (SInt (List.length (nodup string_dec (map ts_code (rows t))))) stats in
  let dates := map trade_date (rows t) in
  let stats := dict_set "date_range" (SRange (sql_min dates) (sql_max dates)) stats in
  let distinct_dates := List.length (nodup string_dec dates) in
  (let* stats :=
     if 0 <? distinct_dates then
       let* total := dict_get "total_records" stats in
       let* n := number_of total in
       Ok (dict_set "avg_records_per_day"
             (SFloat (n / inject_Z (Z.of_nat distinct_dates))) stats)
     else Ok stats in
   let complete_records := count_where all_present t in
   let* total := dict_get "total_records" stats in
   let* n := number_of total in
   if Qlt_bool 0 n then
     Ok (dict_set "completeness_percentage"
           (SFloat (inject_Z (Z.of_nat complete_records) / n * (100 # 1))) stats)
   else Ok stats)%result.

(** *** [validate_data] *)

(** The four checks [validate_data] calls on the cursor.  They are
    arguments of [validate_data_with], so that a query that fails in the
    storage layer can be stated; [validate_data] passes the checks above. *)
Record Checks : Type := mkChecks {
  integrity : Table -> Result (list Message);
  correctness : Table -> Result (list Message);
  consistency : Table -> Result (list Message);
  detailed_statistics : Table -> Result Dict
}.

Definition initial_results : Report := mkReport true [] [] [].

Definition set_invalid : Py Report unit :=
  modify (fun r => mkReport false (errors r) (warnings r) (statistics r)).

Definition append_error (m : Message) : Py Report unit :=
  modify (fun r => mkReport (is_valid r) (errors r ++ [m]) (warnings r) (statistics r)).

Definition extend_errors (ms : list Message) : Py Report unit :=
  modify (fun r => mkReport (is_valid r) (errors r ++ ms) (warnings r) (statistics r)).

Definition extend_warnings (ms : list Message) : Py Report unit :=
  modify (fun r => mkReport (is_valid r) (errors r) (warnings r ++ ms) (statistics r)).

Definition set_statistic (k : string) (v : StatValue) : Py Report unit :=
  modify (fun r => mkReport (is_valid r) (errors r) (warnings r)
                     (dict_set k v (statistics r))).

Definition update_statistics (stats : Dict) : Py Report unit :=
  modify (fun r => mkReport (is_valid r) (errors r) (warnings r)
                     (dict_update (statistics r) stats)).

Definition when (b : bool) (m : Py Report unit) : Py Report unit :=
  if b then m else ret tt.

Definition nonempty {A} (l : list A) : bool :=
  match l with [] => false | _ :: _ => true end.

(** The [try] block; its [return results] are the ends of the branches. *)
Definition validate_body (ck : Checks) (d : Database) : Py Report unit :=
  (if negb (check_database_exists d) then
     set_invalid ;; append_error DatabaseFileMissing
   else
     match get_db_connection d with
     | StockDaily t =>
         let total_count := List.length (rows t) in
         if total_count =? 0 then
           set_invalid ;; append_error NoData
         else
           set_statistic "total_records" (SInt total_count) ;;
           integrity_issues <- lift (integrity ck t) ;;
           when (nonempty integrity_issues) (extend_warnings integrity_issues) ;;
           correctness_issues <- lift (correctness ck t) ;;
           when (nonempty correctness_issues)
             (extend_warnings correctness_issues ;;
              when (existsb is_severe correctness_issues)
                (set_invalid ;;
                 extend_errors (filter is_severe correctness_issues))) ;;
           consistency_issues <- lift (consistency ck t) ;;
           when (nonempty consistency_issues) (extend_warnings consistency_issues) ;;
           stats <- lift (detailed_statistics ck t) ;;
           update_statistics stats
     | _ => set_invalid ;; append_error TableMissing
     end)%py.

(** [except Exception as e]: the same dict, marked invalid, with the
    message of the exception. *)
Definition validate_handler (e : Exn) : Py Report unit :=
  (set_invalid ;; append_error (CheckFailed e))%py.

(** What the call gives its caller: the returned dict, or an exception. *)
Definition validate_data_with (ck : Checks) (d : Database) : Result Report :=
  match try_except (validate_body ck d) validate_handler initial_results with
  | (results, Ok _) => Ok results
  | (_, Raise e) => Raise e
  end.

Definition checks (env : Env) : Checks :=
  mkChecks check_data_integrity check_data_correctness
           (check_data_consistency env) get_detailed_statistics.

Definition validate_data (env : Env) (d : Database) : Result Report :=
  validate_data_with (checks env) d.

End DataValidator.

(** ** data_storage.py: [get_data_statistics] *)

Module DataStorageStatistics.
Import DataStorage DataValidator.

(** The dict of [get_data_statistics]: empty when the file is absent. *)
Definition get_data_statistics (d : Database) : Result Dict :=
  if negb (check_database_exists d) then Ok []
  else
    match get_db_connection d with
    | StockDaily t =>
        let stats : Dict := [] in
        let stats := dict_set "total_records" (SInt (List.length (rows t))) stats in
        let stats :=
          dict_set "stock_count"
            (SInt (List.length (nodup string_dec (map ts_code (rows t))))) stats in
        let dates := map trade_date (rows t) in
        Ok (dict_set "date_range" (SRange (sql_min dates) (sql_max dates)) stats)
    | _ => Raise OperationalError
    end.

End DataStorageStatistics.

(** ** main.py *)

Module Main.
Import DataStorage DataValidator.

(** What a run of [daily_job] leaves: the world, the events of the update
    loop, and the reports handed to [print_validation_report]. *)
Record Run : Type := mkRun {
  world : World;
  events : list DataFetcher.Event;
  printed : list Report
}.

Definition run_update (env : Env) : Py Run bool :=
  fun r =>
    match update_incremental_data env 1 (world r) with
    | (w', outcome, evs) => (mkRun w' (events r ++ evs) (printed r), outcome)
    end.

Definition run_validation (env : Env) : Py Run unit :=
  fun r =>
    match validate_data env (database (world r)) with
    | Ok results => (mkRun (world r) (events r) (printed r ++ [results]), Ok tt)
    | Raise e => (r, Raise e)
    end.

(** [daily_job]: the update and the validation stand in one [try] block;
    the handler logs the exception and the job ends. *)
Definition daily_job (env : Env) (w : World) : Run * Result unit :=
  try_except
    (updated <- run_update env ;; run_validation env)%py
    (fun _ => ret tt)
    (mkRun w [] []).

(** [DEFAULT_FETCH_DAYS] of [data_config.py]. *)
Definition DEFAULT_FETCH_DAYS : Z := 365.

(** [initial_setup]: creates the table, and fills it by a full fetch when
    it has no row.  The events are those of the fetch loop. *)
Definition initial_setup (env : Env) (w : World)
  : World * Result unit * list DataFetcher.Event :=
  let w0 := mkWorld (init_database (database w)) (backup_flag w) in
  match check_data_exists (database w0) with
  | Raise e => (w0, Raise e, [])
  | Ok true => (w0, Ok tt, [])
  | Ok false =>
      match DataFetcher.fetch_all_stock_data env DEFAULT_FETCH_DAYS (1 # 10) with
      | (Raise e, evs) => (w0, Raise e, evs)
      | (Ok df, evs) =>
          if Pandas.empty df then (w0, Ok tt, evs)
          else
            match DataFetcher.format_data_for_storage env df with
            | Raise e => (w0, Raise e, evs)
            | Ok formatted_df =>
                match save_data env formatted_df 1000 w0 with
                | (w1, Ok _) => (w1, Ok tt, evs)
                | (w1, Raise e) => (w1, Raise e, evs)
                end
            end
      end
  end.

(** [restore_mode] *)
Definition restore_mode (env : Env) (w : World)
  : World * Result unit * list DataFetcher.Event :=
  match restore_all_data env w with
  | (w', Ok _, evs) => (w', Ok tt, evs)
  | (w', Raise e, evs) => (w', Raise e, evs)
  end.

End Main.

(** ** Sample data *)

Module Samples.
Import Pandas DataStorage.

(** A provider that has nothing for any instrument. *)
Definition quiet_env : Env :=
  mkEnv (fun i => 100 + i) 500 (fun _ => false) 20000
        (fun _ => "20240110") (fun _ _ _ => NoFrame) (Ok [])
        (fun _ => None) (fun _ => 0%Z) (fun _ => None).

(** The same, with a storage layer that fails every commit. *)
Definition failing_env : Env :=
  mkEnv (fun i => 100 + i) 500 (fun _ => true) 20000
        (fun _ => "20240110") (fun _ _ _ => NoFrame) (Ok [])
        (fun _ => None) (fun _ => 0%Z) (fun _ => None).

(** The same, with a storage layer whose second commit fails (the first
    and every later one succeed). *)
Definition second_commit_fails_env : Env :=
  mkEnv (fun i => 100 + i) 500 (fun k => k =? 1) 20000
        (fun _ => "20240110") (fun _ _ _ => NoFrame) (Ok [])
        (fun _ => None) (fun _ => 0%Z) (fun _ => None).

(** A later call: the same readings, the clock further on. *)
Definition later_env : Env :=
  mkEnv (fun i => 200 + i) 600 (fun _ => false) 20000
        (fun _ => "20240110") (fun _ _ _ => NoFrame) (Ok [])
        (fun _ => None) (fun _ => 0%Z) (fun _ => None).

(** Two formatted bars of one instrument. *)
Definition two_bars : DataFrame :=
  [("trade_date", [Str "20240102"; Str "20240103"]);
   ("ts_code", [Str "000001"; Str "000001"]);
   ("open", [Num (10 # 1); Num (11 # 1)]);
   ("close", [Num (11 # 1); Num (12 # 1)]);
   ("high", [Num (12 # 1); Num (13 # 1)]);
   ("low", [Num (9 # 1); Num (10 # 1)]);
   ("volume", [Num (1000 # 1); Num (2000 # 1)]);
   ("amount", [Num (10000 # 1); Num (20000 # 1)])].

(** The first of them again, with a corrected close. *)
Definition corrected_bar : DataFrame :=
  [("trade_date", [Str "20240102"]);
   ("ts_code", [Str "000001"]);
   ("open", [Num (10 # 1)]);
   ("close", [Num (15 # 1)]);
   ("high", [Num (16 # 1)]);
   ("low", [Num (9 # 1)]);
   ("volume", [Num (1000 # 1)]);
   ("amount", [Num (10000 # 1)])].

Definition fresh_world : World := mkWorld (StockDaily empty_table) None.

(** A calendar for the samples: ISO text, YYYYMMDD text, day number. *)
Definition calendar : list (string * string * Z) :=
  [("2023-01-10", "20230110", 19635%Z);
   ("2024-01-01", "20240101", 19991%Z); ("2024-01-02", "20240102", 19992%Z);
   ("2024-01-03", "20240103", 19993%Z); ("2024-01-04", "20240104", 19994%Z);
   ("2024-01-05", "20240105", 19995%Z); ("2024-01-06", "20240106", 19996%Z);
   ("2024-01-07", "20240107", 19997%Z); ("2024-01-08", "20240108", 19998%Z);
   ("2024-01-09", "20240109", 19999%Z); ("2024-01-10", "20240110", 20000%Z)].

Definition sample_strftime (z : Z) : string :=
  match find (fun e => (snd e =? z)%Z) calendar with
  | Some e => snd (fst e)
  | None => "19700101"
  end.

Definition sample_parse_datetime (s : string) : option Z :=
  match find (fun e => String.eqb (fst (fst e)) s) calendar with
  | Some e => Some (snd e)
  | None => None
  end.

(** A provider with one well-formed bar at each request. *)
Definition one_bar : DataFrame :=
  [("日期", [Str "2024-01-10"]);
   ("开盘", [Num (10 # 1)]);
   ("收盘", [Num (11 # 1)]);
   ("最高", [Num (12 # 1)]);
   ("最低", [Num (9 # 1)]);
   ("成交量", [Num (1000 # 1)]);
   ("成交额", [Num (10000 # 1)])].

(** What the fetcher returns for ten days of an instrument, the close of
    the fourth day missing. *)
Definition ten_rows : DataFrame :=
  [("日期", map Str ["2024-01-01"; "2024-01-02"; "2024-01-03"; "2024-01-04";
                    "2024-01-05"; "2024-01-06"; "2024-01-07"; "2024-01-08";
                    "2024-01-09"; "2024-01-10"]);
   ("开盘", repeat (Num (10 # 1)) 10);
   ("收盘", [Num (11 # 1); Num (11 # 1); Num (11 # 1); NA; Num (11 # 1);
             Num (11 # 1); Num (11 # 1); Num (11 # 1); Num (11 # 1); Num (11 # 1)]);
   ("最高", repeat (Num (12 # 1)) 10);
   ("最低", repeat (Num (9 # 1)) 10);
   ("成交量", repeat (Num (1000 # 1)) 10);
   ("成交额", repeat (Num (10000 # 1)) 10);
   ("股票代码", repeat (Str "000001") 10)].



Definition live_env : Env :=
  mkEnv (fun i => 300 + i) 700 (fun _ => false) 20000
        sample_strftime (fun _ _ _ => Frame one_bar) (Ok ["000001"; "000002"])
        sample_parse_datetime (fun _ => 0%Z) (fun _ => None).

(** The same provider, on a storage layer that fails every commit. *)
Definition live_failing_env : Env :=
  mkEnv (fun i => 300 + i) 700 (fun _ => true) 20000
        sample_strftime (fun _ _ _ => Frame one_bar) (Ok ["000001"; "000002"])
        sample_parse_datetime (fun _ => 0%Z) (fun _ => None).

(** A provider whose every call raises. *)
Definition raising_env : Env :=
  mkEnv (fun i => 300 + i) 700 (fun _ => false) 20000
        sample_strftime (fun _ _ _ => Raises ProviderError) (Ok ["000001"; "000002"])
        sample_parse_datetime (fun _ => 0%Z) (fun _ => None).

(** A provider that raises for instrument 000002 and answers for every
    other one. *)
Definition middle_fails_env : Env :=
  mkEnv (fun i => 300 + i) 700 (fun _ => false) 20000
        sample_strftime
        (fun code _ _ =>
           if String.eqb code "000002" then Raises ProviderError else Frame one_bar)
        (Ok ["000001"; "000002"; "000003"])
        sample_parse_datetime (fun _ => 0%Z) (fun _ => None).

Definition bar_row (i : nat) (code date : string) : Row :=
  mkRow i code date (Some (10 # 1)) (Some (12 # 1)) (Some (9 # 1))
        (Some (11 # 1)) (Some (1000 # 1)) (Some (10000 # 1)) 50 50.

(** Two instruments whose stored tails are older than yesterday, and one
    that is current. *)
Definition stale_world : World :=
  mkWorld
    (StockDaily
       (mkTable [bar_row 1 "000001" "20240102";
                 bar_row 2 "000001" "20240103";
                 bar_row 3 "000002" "20240105";
                 bar_row 4 "000003" "20240109"] 4))
    (Some (60, 4)).

(** Ten good bars of one instrument and an eleventh with volume -1. *)
Definition negative_volume_table : Table :=
  mkTable
    (map (fun i => bar_row (S i) "000001" (sample_strftime (19991 + Z.of_nat i)))
         (seq 0 10)
     ++ [mkRow 11 "000001" "20231229" (Some (10 # 1)) (Some (12 # 1)) (Some (9 # 1))
           (Some (11 # 1)) (Some (-1 # 1)) (Some (10000 # 1)) 50 50])
    11.

(** The same, the eleventh bar with close -1 instead. *)
Definition negative_close_table : Table :=
  mkTable
    (map (fun i => bar_row (S i) "000001" (sample_strftime (19991 + Z.of_nat i)))
         (seq 0 10)
     ++ [mkRow 11 "000001" "20231229" (Some (10 # 1)) (Some (12 # 1)) (Some (9 # 1))
           (Some (-1 # 1)) (Some (1000 # 1)) (Some (10000 # 1)) 50 50])
    11.

(** One instrument, stored up to yesterday. *)
Definition current_world : World :=
  mkWorld (StockDaily (mkTable [bar_row 4 "000003" "20240109"] 4)) None.

End Samples.

(** * Observations *)

(** ** On the stored table *)

Module StorageFacts.
Import Pandas DataStorage.

(** The fields of a stored row that are not timestamps and not the
    surrogate id. *)
Definition bar_of_row (r : Row) : DailyBar :=
  mkBar (Some (ts_code r)) (Some (trade_date r))
        (open r) (high r) (low r) (close r) (volume r) (amount r).

Definition table_contents (t : Table) : list DailyBar :=
  map bar_of_row (rows t).

(** [SELECT ts_code, trade_date, open, ..., amount FROM stock_daily]. *)
Definition contents (d : Database) : list DailyBar :=
  match d with
  | StockDaily t => table_contents t
  | _ => []
  end.

(** [SELECT COUNT( * ) FROM stock_daily]. *)
Definition row_count (d : Database) : nat := List.length (contents d).

Definition bar_key (b : DailyBar) : option string * option string :=
  (bar_ts_code b, bar_trade_date b).

(** [UNIQUE(ts_code, trade_date)]: no two stored rows share a key. *)
Definition keys_unique (d : Database) : Prop :=
  NoDup (map bar_key (contents d)).

(** A well-formed record has both key fields. *)
Definition well_formed (b : DailyBar) : bool :=
  match bar_ts_code b, bar_trade_date b with
  | Some _, Some _ => true
  | _, _ => false
  end.

Definition bar_has_key (c d : string) (x : DailyBar) : bool :=
  match bar_ts_code x, bar_trade_date x with
  | Some c', Some d' => String.eqb c' c && String.eqb d' d
  | _, _ => false
  end.

Definition same_bar_key (b x : DailyBar) : bool :=
  match bar_ts_code b, bar_trade_date b with
  | Some c, Some d => bar_has_key c d x
  | _, _ => false
  end.

(** The upsert on contents: drop the record with the key, append. *)
Definition upsert (b : DailyBar) (c : list DailyBar) : list DailyBar :=
  if well_formed b
  then filter (fun x => negb (same_bar_key b x)) c ++ [b]
  else c.

Definition upsert_all (batch : list DailyBar) (c : list DailyBar) : list DailyBar :=
  fold_left (fun acc b => upsert b acc) batch c.

Definition in_batch (batch : list DailyBar) (x : DailyBar) : bool :=
  existsb (fun b => same_bar_key b x) batch.

(** Chunk [k] of the call fails: a record of it violates [NOT NULL], or
    its commit fails. *)
Definition chunk_fails (env : Env) (records : list DailyBar) (size k : nat) : bool :=
  negb (forallb well_formed (slice records (k * size) size)) || commit_fails env k.

Definition chunk_count (total : nat) (size : nat) : nat :=
  (total + size - 1) / size.

(** The start offsets of chunks [j .. j+n-1]. *)
Definition chunk_starts (size j n : nat) : list nat :=
  map (fun k => k * size) (seq j n).

(** The chunks the loop of [save_data] takes, in order. *)
Definition chunks_of (records : list DailyBar) (size : nat) : list (list DailyBar) :=
  map (fun k => slice records (k * size) size)
      (seq 0 (chunk_count (List.length records) size)).

Definition all_chunks_succeed (env : Env) (records : list DailyBar) (size : nat) : Prop :=
  forall k, k < chunk_count (List.length records) size ->
            chunk_fails env records size k = false.

(** The flag file holds what this call writes: its timestamp and the
    number of records of the batch. *)
Definition flag_written (env : Env) (records : list DailyBar) (w : World) : Prop :=
  backup_flag w = Some (now env, List.length records).

(** [SELECT * FROM stock_daily WHERE ts_code = ? AND trade_date = ?] *)
Definition rows_with_key (c d : string) (db : Database) : list Row :=
  match db with
  | StockDaily t => filter (same_key c d) (rows t)
  | _ => []
  end.

(** The trade dates stored for an instrument. *)
Definition stored_dates (t : Table) (code : string) : list string :=
  map trade_date (filter (fun r => String.eqb (ts_code r) code) (rows t)).

(** [knownInstruments()]: what the update loop iterates over. *)
Definition known_instruments (t : Table) : list string :=
  distinct_sorted (map ts_code (rows t)).

Definition is_sleep (e : DataFetcher.Event) : bool :=
  match e with DataFetcher.Sleep _ => true | _ => false end.

End StorageFacts.

Module FetcherFacts.
Import Pandas DataFetcher.

(** A row without a missing cell. *)
Definition no_null (row : list Cell) : bool :=
  forallb (fun c => negb (isna c)) row.




(** The frame after renaming and coercion, before [dropna]. *)
Definition coerced_frame (env : Env) (ds : list (option Z))
  (codes o c h l v a : Series) : DataFrame :=
  [("trade_date", dt_strftime env ds); ("ts_code", codes);
   ("open", to_numeric env o); ("close", to_numeric env c);
   ("high", to_numeric env h); ("low", to_numeric env l);
   ("volume", to_numeric env v); ("amount", to_numeric env a)].






End FetcherFacts.

Module ValidatorFacts.
Import DataStorage DataValidator.

(** The report the handler of [validate_data] makes of the results dict
    as the exception found it. *)
Definition after_exception (s : Report) (e : Exn) : Report :=
  mkReport false (errors s ++ [CheckFailed e]) (warnings s) (statistics s).

Definition total_only (t : Table) : Dict :=
  [("total_records", SInt (List.length (rows t)))].

(** A blocking defect of a row: a price that is not positive, or a high
    below the low. *)
Definition blocking_row (r : Row) : bool :=
  sql_where (any_price (fun x => sql_le x 0) r)
  || sql_where (sql_lt2 (high r) (low r)).

End ValidatorFacts.

(** ** On the rest of the storage, the fetcher and the scheduler *)

Module MoreFacts.
Import Pandas DataStorage StorageFacts.

(** Row ids are distinct and none is above the AUTOINCREMENT counter. *)
Definition ids_fresh (t : Table) : Prop :=
  NoDup (map id (rows t)) /\ Forall (fun r => id r <= last_id t) (rows t).

(** No row was touched after it was created. *)
Definition timestamps_agree (t : Table) : Prop :=
  Forall (fun r => created_at r = updated_at r) (rows t).

(** The row carries a key that no record of the batch carries. *)
Definition outside_batch (records : list DailyBar) (r : Row) : bool :=
  negb (in_batch records (bar_of_row r)).

(** All eight fields of the record are there. *)
Definition complete (b : DailyBar) : bool :=
  match bar_ts_code b, bar_trade_date b, bar_open b, bar_high b,
        bar_low b, bar_close b, bar_volume b, bar_amount b with
  | Some _, Some _, Some _, Some _, Some _, Some _, Some _, Some _ => true
  | _, _, _, _, _, _, _, _ => false
  end.

(** The cell is no number: a string or missing. *)
Definition not_number (c : Cell) : bool :=
  match c with Num _ => false | _ => true end.

(** The cell is no string: a number or missing. *)
Definition not_text (c : Cell) : bool :=
  match c with Str _ => false | _ => true end.

(** The calls of the fetcher among the events, without the sleeps. *)
Definition requests (evs : list DataFetcher.Event) : list DataFetcher.Event :=
  filter (fun e => negb (is_sleep e)) evs.

(** The provider raises on every call for the instrument. *)
Definition provider_fails_for (env : Env) (code : string) : Prop :=
  forall s e, exists x, stock_zh_a_hist env code s e = Raises x.

(** The instrument is current: its latest stored date is not before the
    start of the window. *)
Definition current (d : Database) (start_date : string) (code : string) : Prop :=
  exists latest,
    get_latest_date_for_stock d code = Ok (Some latest)
    /\ String.ltb latest start_date = false.

(** The file is absent, or there without the table. *)
Definition no_table (d : Database) : Prop :=
  match d with StockDaily _ => False | _ => True end.

(** The WHERE conditions of the two price checks. *)
Definition nonpositive_price (r : Row) : bool :=
  DataValidator.sql_where
    (DataValidator.any_price (fun x => DataValidator.sql_le x 0) r).

Definition price_out_of_range (r : Row) : bool :=
  DataValidator.sql_where
    (DataValidator.sql_or
       (DataValidator.any_price (fun x => DataValidator.sql_gt x (10000 # 1)) r)
       (DataValidator.any_price (fun x => DataValidator.sql_lt x (1 # 100)) r)).

(** The WHERE condition of the date format check. *)
Definition bad_date (r : Row) : bool :=
  negb (String.length (trade_date r) =? 8)
  || negb (DataValidator.glob_8_digits (trade_date r)).

End MoreFacts.

(** * Properties *)

(** ** Storage: upserts and the chunk loop *)

Module StorageProofs.
Import Pandas DataStorage StorageFacts.

Lemma same_key_bar c d r : same_key c d r = bar_has_key c d (bar_of_row r).
Proof. reflexivity. Qed.

Lemma filter_contents c d l :
  map bar_of_row (filter (fun r => negb (same_key c d r)) l)
  = filter (fun x => negb (bar_has_key c d x)) (map bar_of_row l).
Proof.
  induction l as [|r l IH]; simpl; [reflexivity|].
  rewrite same_key_bar.
  destruct (bar_has_key c d (bar_of_row r)); simpl; now rewrite IH.
Qed.

Lemma insert_or_replace_wf ts b t :
  well_formed b = true ->
  exists t', insert_or_replace ts b t = Ok t'
             /\ table_contents t' = upsert b (table_contents t)
             /\ last_id t' = S (last_id t).
Proof.
  destruct b as [[c|] [d|] o h l cl v a]; simpl; try discriminate.
  intros _. eexists; split; [reflexivity|]. split; [|reflexivity].
  unfold table_contents, upsert, insert_or_replace; simpl.
  rewrite map_app, filter_contents. reflexivity.
Qed.

Lemma insert_or_replace_ill ts b t :
  well_formed b = false -> insert_or_replace ts b t = Raise IntegrityError.
Proof.
  destruct b as [[c|] [d|] o h l cl v a]; simpl; intros H;
    try discriminate; reflexivity.
Qed.

Lemma executemany_wf clk batch : forall i t,
  forallb well_formed batch = true ->
  exists t', executemany clk i batch t = (t', Ok tt)
             /\ table_contents t' = upsert_all batch (table_contents t).
Proof.
  induction batch as [|b batch IH]; intros i t H; simpl in *.
  - eauto.
  - apply andb_true_iff in H as [Hb Hrest].
    destruct (insert_or_replace_wf (clk i) b t Hb) as (t1 & -> & Hc & _).
    destruct (IH (S i) t1 Hrest) as (t' & -> & Hc').
    exists t'. split; [reflexivity|]. now rewrite Hc', Hc.
Qed.

Lemma executemany_ill clk batch : forall i t,
  forallb well_formed batch = false ->
  snd (executemany clk i batch t) = Raise IntegrityError.
Proof.
  induction batch as [|b batch IH]; intros i t H; simpl in *; [discriminate|].
  destruct (well_formed b) eqn:Hb; simpl in H.
  - destruct (insert_or_replace_wf (clk i) b t Hb) as (t1 & -> & _).
    apply IH, H.
  - now rewrite (insert_or_replace_ill _ _ _ Hb).
Qed.

(** *** Upserts on contents *)

Lemma filter_none {A} (f : A -> bool) (l : list A) :
  (forall x, In x l -> f x = false) -> filter f l = [].
Proof.
  induction l as [|x l IH]; intros H; simpl; [reflexivity|].
  rewrite (H x) by now left. apply IH. intros; apply H; now right.
Qed.

Lemma same_bar_key_spec b x :
  same_bar_key b x = true <-> well_formed b = true /\ bar_key x = bar_key b.
Proof.
  unfold same_bar_key, bar_has_key, well_formed, bar_key.
  destruct b as [[c|] [d|] ? ? ? ? ? ?], x as [[c'|] [d'|] ? ? ? ? ? ?]; simpl;
    try (split; [discriminate | intros [? ?]; congruence]).
  rewrite andb_true_iff, !String.eqb_eq. split.
  - intros [-> ->]. now split.
  - intros [_ E]. now inversion E.
Qed.

Lemma in_batch_spec batch x :
  in_batch batch x = true
  <-> exists b, In b batch /\ well_formed b = true /\ bar_key x = bar_key b.
Proof.
  unfold in_batch. rewrite existsb_exists. split.
  - intros (b & I & S). apply same_bar_key_spec in S. now exists b.
  - intros (b & I & W & K). exists b. split; [assumption|].
    now apply same_bar_key_spec.
Qed.

Lemma upsert_wf b c :
  well_formed b = true ->
  upsert b c = filter (fun x => negb (same_bar_key b x)) c ++ [b].
Proof. unfold upsert. now intros ->. Qed.

Lemma upsert_all_cons b batch c :
  upsert_all (b :: batch) c = upsert_all batch (upsert b c).
Proof. reflexivity. Qed.

Lemma filter_not_in_batch b batch c :
  filter (fun x => negb (in_batch batch x))
         (filter (fun x => negb (same_bar_key b x)) c)
  = filter (fun x => negb (in_batch (b :: batch) x)) c.
Proof.
  induction c as [|x c IH]; simpl; [reflexivity|].
  destruct (same_bar_key b x); simpl; [exact IH|].
  destruct (in_batch batch x); simpl; now rewrite IH.
Qed.

(** Upserting a batch keeps the records of other keys, in place, and
    appends what the batch alone produces. *)
Lemma upsert_all_split batch : forall c,
  forallb well_formed batch = true ->
  upsert_all batch c
  = filter (fun x => negb (in_batch batch x)) c ++ upsert_all batch [].
Proof.
  induction batch as [|b batch IH]; intros c H.
  - simpl. induction c as [|x c IHc]; simpl; [reflexivity|].
    f_equal. rewrite app_nil_r in IHc. now rewrite app_nil_r.
  - simpl in H. apply andb_true_iff in H as [Hb Hrest].
    rewrite !upsert_all_cons, (IH (upsert b c) Hrest), (IH (upsert b []) Hrest).
    rewrite !upsert_wf by assumption. simpl.
    rewrite filter_app, filter_not_in_batch, <- app_assoc. reflexivity.
Qed.

Lemma upsert_all_from batch : forall c x,
  In x (upsert_all batch c) -> In x c \/ In x batch.
Proof.
  induction batch as [|b batch IH]; intros c x H; [now left|].
  rewrite upsert_all_cons in H. apply IH in H as [H|H]; [|right; now right].
  unfold upsert in H. destruct (well_formed b); [|now left].
  apply in_app_or in H as [H|[<-|[]]].
  - left. now apply filter_In in H.
  - right. now left.
Qed.

Lemma upsert_all_idempotent batch c :
  forallb well_formed batch = true ->
  upsert_all batch (upsert_all batch c) = upsert_all batch c.
Proof.
  intros H.
  rewrite (upsert_all_split batch (upsert_all batch c) H).
  rewrite (upsert_all_split batch c H).
  rewrite filter_app.
  rewrite (filter_none (fun x => negb (in_batch batch x)) (upsert_all batch [])).
  - rewrite app_nil_r. f_equal.
    apply forallb_filter_id, forallb_filter.
  - intros x I. apply upsert_all_from in I as [[]|I].
    apply negb_false_iff, in_batch_spec. exists x.
    rewrite forallb_forall in H. auto.
Qed.

(** An upsert keeps the keys distinct. *)
Lemma upsert_keys_unique b c :
  NoDup (map bar_key c) -> NoDup (map bar_key (upsert b c)).
Proof.
  intros N. unfold upsert. destruct (well_formed b) eqn:W; [|assumption].
  rewrite map_app. apply NoDup_app.
  - clear W. induction c as [|x c IH]; simpl; [constructor|].
    inversion N as [|k l Hk Hl]; subst.
    destruct (same_bar_key b x); simpl; [now apply IH|].
    constructor; [|now apply IH].
    intros I. apply Hk. apply in_map_iff in I as (y & E & I).
    apply filter_In in I as [I _]. apply in_map_iff. now exists y.
  - simpl. constructor; [intros []|constructor].
  - intros k I [<-|[]]. apply in_map_iff in I as (y & E & I).
    apply filter_In in I as [_ F]. apply negb_true_iff in F.
    assert (same_bar_key b y = true) by now apply same_bar_key_spec.
    congruence.
Qed.

Lemma upsert_all_keys_unique batch : forall c,
  NoDup (map bar_key c) -> NoDup (map bar_key (upsert_all batch c)).
Proof.
  induction batch as [|b batch IH]; intros c N; [assumption|].
  rewrite upsert_all_cons. now apply IH, upsert_keys_unique.
Qed.

(** A record of the batch that no later record of the batch replaces is
    stored as it was given. *)
Lemma upsert_all_last l2 : forall c b,
  In b c ->
  (forall x, In x l2 -> same_bar_key x b = false) ->
  In b (upsert_all l2 c).
Proof.
  induction l2 as [|y l2 IH]; intros c b I H; [assumption|].
  rewrite upsert_all_cons. apply IH; [|intros; apply H; now right].
  unfold upsert. destruct (well_formed y); [|assumption].
  apply in_or_app. left. apply filter_In. split; [assumption|].
  rewrite (H y) by now left. reflexivity.
Qed.

Lemma upsert_all_stores l1 b l2 c :
  well_formed b = true ->
  (forall x, In x l2 -> same_bar_key x b = false) ->
  In b (upsert_all (l1 ++ b :: l2) c).
Proof.
  intros W H. unfold upsert_all. rewrite fold_left_app. simpl.
  apply (upsert_all_last l2); [|assumption].
  rewrite upsert_wf by assumption. apply in_or_app. right. now left.
Qed.

(** *** The chunk loop *)

Lemma firstn_plus {A} (n m : nat) (l : list A) :
  firstn (n + m) l = firstn n l ++ firstn m (skipn n l).
Proof.
  revert l; induction n as [|n IH]; intros [|x l]; simpl;
    try reflexivity.
  - now rewrite firstn_nil.
  - now rewrite IH.
Qed.

Lemma chunk_ok env records size k :
  chunk_fails env records size k = false ->
  forallb well_formed (slice records (k * size) size) = true
  /\ commit_fails env k = false.
Proof.
  unfold chunk_fails. intros H. apply orb_false_iff in H as [H1 H2].
  apply negb_false_iff in H1. now split.
Qed.

(** The loop is sequential in its list of offsets. *)
Lemma save_chunks_app env records size l1 : forall l2 k t,
  save_chunks env records size (l1 ++ l2) k t
  = match save_chunks env records size l1 k t with
    | (t1, Ok _) => save_chunks env records size l2 (k + List.length l1) t1
    | (t1, Raise e) => (t1, Raise e)
    end.
Proof.
  induction l1 as [|i l1 IH]; intros l2 k t; simpl.
  - now rewrite Nat.add_0_r.
  - destruct (executemany (clock env) i (slice records i size) t) as [p [[]|e]];
      [|reflexivity].
    destruct (commit_fails env k); [reflexivity|].
    rewrite IH. now replace (S k + List.length l1) with (k + S (List.length l1)) by lia.
Qed.

(** Chunks [j .. j+n-1] without a failure: the loop commits them all, and
    the table holds the upserts of their records, in order. *)
Lemma save_chunks_ok env records size n : forall j t,
  (forall m, j <= m < j + n -> chunk_fails env records size m = false) ->
  exists t',
    save_chunks env records size (chunk_starts size j n) j t = (t', Ok tt)
    /\ table_contents t'
       = upsert_all (firstn (n * size) (skipn (j * size) records)) (table_contents t).
Proof.
  induction n as [|n IH]; intros j t H; simpl.
  - eauto.
  - destruct (chunk_ok env records size j) as [Hwf Hc]; [apply H; lia|].
    destruct (executemany_wf (clock env) _ (j * size) t Hwf) as (t1 & E1 & C1).
    unfold chunk_starts in *. simpl. rewrite E1, Hc.
    destruct (IH (S j) t1) as (t' & E' & C'); [intros; apply H; lia|].
    exists t'. split; [exact E'|].
    rewrite C', C1, firstn_plus. unfold upsert_all.
    rewrite fold_left_app, skipn_skipn. reflexivity.
Qed.

(** A failing chunk stops the loop, and the committed table is left as
    it was before the chunk. *)
Lemma save_chunks_fail env records size k rest t :
  chunk_fails env records size k = true ->
  exists e, save_chunks env records size (k * size :: rest) k t = (t, Raise e).
Proof.
  unfold chunk_fails; intros H; simpl.
  destruct (executemany (clock env) (k * size) (slice records (k * size) size) t)
    as [p [[]|e]] eqn:E; [|eauto].
  destruct (commit_fails env k); [eauto|].
  rewrite orb_false_r in H. apply negb_true_iff in H.
  pose proof (executemany_ill (clock env) _ (k * size) t H) as F.
  rewrite E in F. discriminate.
Qed.

Lemma py_range_pos total step :
  (0 < step)%Z ->
  py_range total step
  = Ok (chunk_starts (Z.to_nat step) 0
          ((total + Z.to_nat step - 1) / Z.to_nat step)).
Proof.
  intros H. unfold py_range.
  destruct (Z.eqb_spec step 0); [lia|].
  destruct (Z.ltb_spec step 0); [lia|]. reflexivity.
Qed.

Lemma chunks_cover total s :
  0 < s -> total <= (total + s - 1) / s * s.
Proof.
  intros H.
  pose proof (Nat.div_mod_eq (total + s - 1) s) as E.
  pose proof (Nat.mod_upper_bound (total + s - 1) s ltac:(lia)) as B.
  nia.
Qed.

Lemma find_seq_some (p : nat -> bool) n : forall a k,
  find p (seq a n) = Some k ->
  a <= k < a + n /\ p k = true /\ forall j, a <= j < k -> p j = false.
Proof.
  induction n as [|n IH]; intros a k H; simpl in H; [discriminate|].
  destruct (p a) eqn:P.
  - inversion H; subst. split; [lia|]. split; [assumption|]. intros; lia.
  - apply IH in H as (B & T & L). split; [lia|]. split; [assumption|].
    intros j Hj. destruct (Nat.eq_dec j a) as [->|]; [assumption|].
    apply L. lia.
Qed.

Lemma find_seq_none (p : nat -> bool) n : forall a,
  find p (seq a n) = None -> forall j, a <= j < a + n -> p j = false.
Proof.
  induction n as [|n IH]; intros a H j Hj; simpl in H; [lia|].
  destruct (p a) eqn:P; [discriminate|].
  destruct (Nat.eq_dec j a) as [->|]; [assumption|].
  apply (IH (S a)); [assumption|lia].
Qed.

Lemma chunk_starts_split size n k :
  k < n ->
  chunk_starts size 0 n
  = chunk_starts size 0 k ++ k * size :: chunk_starts size (S k) (n - S k).
Proof.
  intros H. unfold chunk_starts.
  replace n with (k + S (n - S k)) at 1 by lia.
  rewrite seq_app, map_app. reflexivity.
Qed.

Lemma chunk_starts_length size j n : List.length (chunk_starts size j n) = n.
Proof. unfold chunk_starts. now rewrite length_map, length_seq. Qed.

Lemma forallb_slice (p : DailyBar -> bool) records i size :
  forallb p records = true -> forallb p (slice records i size) = true.
Proof.
  rewrite !forallb_forall. intros H x I. apply H.
  unfold slice in I.
  rewrite <- (firstn_skipn i records). apply in_or_app. right.
  rewrite <- (firstn_skipn size (skipn i records)). apply in_or_app. now left.
Qed.

Lemma no_chunk_fails env records size k :
  forallb well_formed records = true ->
  (forall j, commit_fails env j = false) ->
  chunk_fails env records size k = false.
Proof.
  intros W C. unfold chunk_fails.
  now rewrite forallb_slice, C.
Qed.

(** *** [save_records]: the loop under its handlers *)

(** The outcome of a call on an initialised database, by its first
    failing chunk. *)
Lemma save_records_outcome env records bs w t :
  (0 < bs)%Z ->
  database w = StockDaily t ->
  let size := Z.to_nat bs in
  match find (chunk_fails env records size)
             (seq 0 (chunk_count (List.length records) size)) with
  | None =>
      exists t',
        save_records env records bs w
        = (mkWorld (StockDaily t') (Some (now env, List.length records)), Ok tt)
        /\ table_contents t' = upsert_all records (table_contents t)
  | Some k =>
      exists e t',
        save_records env records bs w
        = (mkWorld (StockDaily t') (backup_flag w), Raise e)
        /\ table_contents t'
           = upsert_all (firstn (k * size) records) (table_contents t)
  end.
Proof.
  intros Hbs Hdb size.
  assert (Hs : 0 < size) by (unfold size; lia).
  unfold save_records. rewrite Hdb, py_range_pos by assumption. simpl.
  fold size. fold (chunk_count (List.length records) size).
  destruct (find _ _) as [k|] eqn:F.
  - apply find_seq_some in F as (B & T & L).
    rewrite (chunk_starts_split size _ k) by lia.
    rewrite save_chunks_app.
    destruct (save_chunks_ok env records size k 0 t) as (t1 & E1 & C1);
      [intros; apply L; lia|].
    rewrite E1, chunk_starts_length, Nat.add_0_l.
    destruct (save_chunks_fail env records size k
                (chunk_starts size (S k) (chunk_count (List.length records) size - S k))
                t1 T) as (e & E2).
    rewrite E2. exists e, t1. split; [reflexivity|].
    now rewrite C1, skipn_0.
  - pose proof (find_seq_none _ _ _ F) as N.
    destruct (save_chunks_ok env records size
                (chunk_count (List.length records) size) 0 t) as (t1 & E1 & C1);
      [intros; apply N; lia|].
    rewrite E1. exists t1. split; [reflexivity|].
    rewrite C1, skipn_0, firstn_all2; [reflexivity|].
    now apply chunks_cover.
Qed.

Lemma chunks_concat records size n :
  List.concat (map (fun k => slice records (k * size) size) (seq 0 n))
  = firstn (n * size) records.
Proof.
  induction n as [|n IH]; [reflexivity|].
  rewrite seq_S, map_app, concat_app, IH. simpl.
  rewrite app_nil_r. unfold slice.
  replace (size + n * size) with (n * size + size) by lia.
  now rewrite firstn_plus.
Qed.

Lemma prefix_well_formed env records size k :
  (forall j, j < k -> chunk_fails env records size j = false) ->
  forallb well_formed (firstn (k * size) records) = true.
Proof.
  induction k as [|k IH]; intros H; [reflexivity|].
  replace (S k * size) with (k * size + size) by lia.
  rewrite firstn_plus, forallb_app, IH by (intros; apply H; lia).
  apply (chunk_ok env records size k), H. lia.
Qed.

Lemma save_records_ok env records bs w t :
  (0 < bs)%Z ->
  database w = StockDaily t ->
  forallb well_formed records = true ->
  (forall k, commit_fails env k = false) ->
  exists t',
    save_records env records bs w
    = (mkWorld (StockDaily t') (Some (now env, List.length records)), Ok tt)
    /\ table_contents t' = upsert_all records (table_contents t).
Proof.
  intros Hbs Hdb W C.
  pose proof (save_records_outcome env records bs w t Hbs Hdb) as O.
  simpl in O.
  destruct (find _ _) as [k|] eqn:F; [|exact O].
  apply find_some in F as [_ F].
  now rewrite no_chunk_fails in F.
Qed.

End StorageProofs.

(** ** Storage: idempotent upsert, chunked commits, re-ingest *)

Module StorageTheorems.
Import Pandas DataStorage StorageFacts StorageProofs Samples.

Lemma save_data_ok env df batch_size w t :
  (0 < batch_size)%Z ->
  database w = StockDaily t ->
  forallb well_formed (prepare_records df) = true ->
  (forall k, commit_fails env k = false) ->
  exists w',
    save_data env df batch_size w = (w', Ok tt)
    /\ contents (database w')
       = (if empty df then contents (database w)
          else upsert_all (prepare_records df) (contents (database w))).
Proof.
  intros Hbs Hdb W C. unfold save_data.
  destruct (empty df); [now exists w|].
  destruct (save_records_ok env _ batch_size w t Hbs Hdb W C) as (t' & -> & Ct).
  eexists; split; [reflexivity|]. simpl. now rewrite Hdb.
Qed.

Lemma save_data_keeps_table env df batch_size w t :
  database w = StockDaily t ->
  exists t', database (fst (save_data env df batch_size w)) = StockDaily t'.
Proof.
  intros Hdb. unfold save_data. destruct (empty df); [now exists t|].
  unfold save_records. rewrite Hdb. simpl.
  destruct (py_range _ _); simpl; [|now exists t].
  destruct (save_chunks _ _ _ _ _ _) as [t' [[]|e]]; now exists t'.
Qed.

(** C1.  On an initialised table, saving a batch of well-formed records
    and then saving the same batch again (at a later time, without a
    storage failure) succeeds both times and leaves the same records, in
    the same number, as saving it once; and if no two rows shared a key
    before, no two rows share one afterwards. *)
Theorem save_data_idempotent env1 env2 df batch_size w t :
  database w = StockDaily t ->
  (0 < batch_size)%Z ->
  forallb well_formed (prepare_records df) = true ->
  (forall k, commit_fails env1 k = false) ->
  (forall k, commit_fails env2 k = false) ->
  let once := save_data env1 df batch_size w in
  let twice := save_data env2 df batch_size (fst once) in
  snd once = Ok tt
  /\ snd twice = Ok tt
  /\ contents (database (fst twice)) = contents (database (fst once))
  /\ row_count (database (fst twice)) = row_count (database (fst once))
  /\ (keys_unique (database w) -> keys_unique (database (fst twice))).
Proof.
  intros Hdb Hbs W C1 C2 once twice.
  destruct (save_data_ok env1 df batch_size w t Hbs Hdb W C1) as (w1 & E1 & K1).
  destruct (save_data_keeps_table env1 df batch_size w t Hdb) as (t1 & Hdb1).
  fold once in E1, Hdb1.
  destruct (save_data_ok env2 df batch_size (fst once) t1 Hbs Hdb1 W C2)
    as (w2 & E2 & K2).
  fold twice in E2.
  assert (Hc : contents (database (fst twice)) = contents (database (fst once))).
  { rewrite E2. simpl. rewrite K2.
    destruct (empty df); [reflexivity|].
    rewrite E1. simpl. rewrite K1. now apply upsert_all_idempotent. }
  rewrite E1 in *. rewrite E2 in *. simpl in *.
  repeat split; try assumption.
  - unfold row_count. now rewrite Hc.
  - unfold keys_unique. intros U. rewrite Hc, K1.
    destruct (empty df); [assumption|]. now apply upsert_all_keys_unique.
Qed.

Lemma save_data_idempotent_witness :
  let once := save_data quiet_env two_bars 1 fresh_world in
  let twice := save_data later_env two_bars 1 (fst once) in
  snd once = Ok tt
  /\ snd twice = Ok tt
  /\ contents (database (fst twice)) = contents (database (fst once))
  /\ row_count (database (fst twice)) = row_count (database (fst once))
  /\ (keys_unique (database fresh_world) -> keys_unique (database (fst twice))).
Proof.
  apply (save_data_idempotent quiet_env later_env two_bars 1 fresh_world empty_table);
    try reflexivity; lia.
Defined.

(** C3, as the code has it.  An empty batch returns at once and leaves the
    flag file alone.  For a batch with rows, a positive [batch_size] and an
    initialised table: the records are cut into consecutive chunks of at
    most [batch_size]; if no chunk fails, all records are upserted and the
    flag file is overwritten with the timestamp and the total count; if
    chunk [k] is the first to fail, the exception reaches the caller, the
    flag file is left as it was, and the table holds exactly the upserts
    of the chunks before [k]: each of their records is stored as given
    unless a later record of those chunks carries its key. *)
Theorem save_data_chunked env df batch_size w t :
  (0 < batch_size)%Z ->
  database w = StockDaily t ->
  let records := prepare_records df in
  let size := Z.to_nat batch_size in
  (empty df = true -> save_data env df batch_size w = (w, Ok tt))
  /\ (empty df = false ->
      List.concat (chunks_of records size) = records
      /\ Forall (fun c => List.length c <= size) (chunks_of records size)
      /\ match find (chunk_fails env records size)
                    (seq 0 (chunk_count (List.length records) size)) with
         | None =>
             exists t',
               save_data env df batch_size w
               = (mkWorld (StockDaily t') (Some (now env, List.length records)), Ok tt)
               /\ table_contents t' = upsert_all records (table_contents t)
         | Some k =>
             exists e t',
               save_data env df batch_size w
               = (mkWorld (StockDaily t') (backup_flag w), Raise e)
               /\ table_contents t'
                  = upsert_all (firstn (k * size) records) (table_contents t)
               /\ (forall l1 b l2,
                      firstn (k * size) records = l1 ++ b :: l2 ->
                      (forall x, In x l2 -> same_bar_key x b = false) ->
                      In b (table_contents t'))
         end).
Proof.
  intros Hbs Hdb records size.
  assert (Hs : 0 < size) by (unfold size; lia).
  unfold save_data. split; [now intros ->|]. intros ->.
  split.
  { unfold chunks_of. rewrite chunks_concat. apply firstn_all2.
    now apply chunks_cover. }
  split.
  { unfold chunks_of. apply Forall_forall. intros c I.
    apply in_map_iff in I as (k & <- & _). apply firstn_le_length. }
  pose proof (save_records_outcome env records batch_size w t Hbs Hdb) as O.
  simpl in O. fold size in O. fold records.
  destruct (find _ _) as [k|] eqn:F; [|exact O].
  destruct O as (e & t' & E & C). exists e, t'.
  split; [exact E|]. split; [exact C|].
  intros l1 b l2 P L. rewrite C, P.
  apply find_seq_some in F as (_ & _ & N).
  assert (W : forallb well_formed (firstn (k * size) records) = true)
    by (apply (prefix_well_formed env); intros; apply N; lia).
  rewrite P, forallb_forall in W. apply upsert_all_stores; [|assumption].
  apply W, in_or_app. right. now left.
Qed.

(** The sample batch of two records in chunks of one, on a storage layer
    whose second commit fails: the call raises and writes no flag; the
    first chunk was committed and its record stays, the second record is
    not stored. *)
Lemma save_data_chunked_witness :
  exists e t',
    save_data second_commit_fails_env two_bars 1 fresh_world
    = (mkWorld (StockDaily t') None, Raise e)
    /\ table_contents t'
       = [mkBar (Some "000001") (Some "20240102") (Some (10 # 1)) (Some (12 # 1))
                (Some (9 # 1)) (Some (11 # 1)) (Some (1000 # 1)) (Some (10000 # 1))]
    /\ In (mkBar (Some "000001") (Some "20240102") (Some (10 # 1)) (Some (12 # 1))
                 (Some (9 # 1)) (Some (11 # 1)) (Some (1000 # 1)) (Some (10000 # 1)))
          (table_contents t').
Proof.
  destruct (save_data_chunked second_commit_fails_env two_bars 1 fresh_world
              empty_table) as [_ H]; [lia | reflexivity |].
  destruct (H eq_refl) as (_ & _ & F).
  destruct F as (e & t' & E & C & D).
  exists e, t'. split; [exact E|]. split; [exact C|].
  apply (D [] _ []); [reflexivity|].
  intros x [].
Defined.

(** C3, as the specification words it, fails on an empty batch: no chunk
    of the call fails, and yet the call writes no flag file. *)
Lemma empty_batch_writes_no_flag :
  ~ (all_chunks_succeed quiet_env (prepare_records []) 1000
     -> flag_written quiet_env (prepare_records [])
          (fst (save_data quiet_env [] 1000 fresh_world))).
Proof.
  intros H.
  assert (F : flag_written quiet_env (prepare_records [])
                (fst (save_data quiet_env [] 1000 fresh_world))).
  { apply H. intros k Hk. vm_compute in Hk. lia. }
  vm_compute in F. discriminate.
Qed.

Lemma same_key_own i c d o h l cl v a ct ut :
  same_key c d (mkRow i c d o h l cl v a ct ut) = true.
Proof. unfold same_key. simpl. now rewrite !String.eqb_refl. Qed.

(** What one [INSERT OR REPLACE] leaves under the key of its record: one
    row, new, with both timestamps at the time of the statement. *)
Lemma insert_or_replace_row ts b t c d :
  bar_ts_code b = Some c ->
  bar_trade_date b = Some d ->
  exists t',
    insert_or_replace ts b t = Ok t'
    /\ rows_with_key c d (StockDaily t')
       = [mkRow (S (last_id t)) c d (bar_open b) (bar_high b) (bar_low b)
            (bar_close b) (bar_volume b) (bar_amount b) ts ts].
Proof.
  intros Hc Hd. unfold insert_or_replace. rewrite Hc, Hd.
  eexists; split; [reflexivity|]. simpl.
  rewrite filter_app. simpl. rewrite same_key_own.
  rewrite (filter_none (same_key c d)); [reflexivity|].
  intros r I. apply filter_In in I as [_ I]. now apply negb_true_iff in I.
Qed.

(** C8, on the code.  A bar is stored at time 100 and the same key is
    ingested again at time 200 with a corrected close: the stored fields
    and [updated_at] are those of the second ingest, and [created_at] is
    200 as well, not the 100 of the first ingest; the row has a new id. *)
Theorem reingest_resets_created_at :
  let first := fst (save_data quiet_env two_bars 1000 fresh_world) in
  let second := fst (save_data later_env corrected_bar 1000 first) in
  map (fun r => (id r, created_at r, updated_at r))
      (rows_with_key "000001" "20240102" (database first))
  = [(1, 100, 100)]
  /\ map (fun r => (id r, created_at r, updated_at r))
         (rows_with_key "000001" "20240102" (database second))
     = [(3, 200, 200)]
  /\ map close (rows_with_key "000001" "20240102" (database second))
     = [Some (15 # 1)].
Proof. vm_compute. repeat split. Qed.

End StorageTheorems.

(** ** The order on date strings *)

Module StringOrder.

Lemma ltb_lt a b : String.ltb a b = true <-> String_as_OT.lt a b.
Proof.
  unfold String.ltb. rewrite <- String_as_OT.cmp_lt. unfold String_as_OT.cmp.
  destruct (String.compare a b); split; congruence.
Qed.

Lemma ltb_trans a b c :
  String.ltb a b = true -> String.ltb b c = true -> String.ltb a c = true.
Proof. rewrite !ltb_lt. apply String_as_OT.lt_trans. Qed.

Lemma ltb_irrefl a : String.ltb a a = false.
Proof.
  destruct (String.ltb a a) eqn:E; [|reflexivity].
  apply ltb_lt in E. apply String_as_OT.lt_not_eq in E.
  exfalso. apply E. reflexivity.
Qed.

Lemma ltb_false a b : String.ltb a b = false -> a = b \/ String.ltb b a = true.
Proof.
  unfold String.ltb. rewrite (String.compare_antisym b a).
  destruct (String.compare a b) eqn:E; simpl; intros H.
  - left. now apply String.compare_eq_iff.
  - discriminate.
  - now right.
Qed.

(** Nothing is above [m] once nothing is above it among [a] and [s]. *)
Lemma ltb_not_above m a s :
  String.ltb m a = false -> String.ltb a s = false -> String.ltb m s = false.
Proof.
  intros H1 H2. destruct (String.ltb m s) eqn:E; [|reflexivity].
  apply ltb_false in H1 as [->|H1]; [congruence|].
  rewrite (ltb_trans a m s H1 E) in H2. discriminate.
Qed.

End StringOrder.

(** ** The incremental planner and the fetch loops *)

Module PlannerProofs.
Import Pandas DataStorage StringOrder.

Lemma sql_max_fold l : forall acc m,
  fold_left
    (fun acc s =>
       match acc with
       | None => Some s
       | Some m => if String.ltb m s then Some s else Some m
       end) l acc = Some m ->
  (acc = Some m \/ In m l)
  /\ (forall a, acc = Some a -> String.ltb m a = false)
  /\ (forall x, In x l -> String.ltb m x = false).
Proof.
  induction l as [|s l IH]; intros acc m H; simpl in H.
  - subst. split; [now left|]. split; [|intros x []].
    intros a E. inversion E. apply ltb_irrefl.
  - apply IH in H as (Hin & Hacc & Hl).
    destruct acc as [a|].
    + destruct (String.ltb a s) eqn:L.
      * split; [destruct Hin as [E|I]; [inversion E; right; now left | right; now right]|].
        pose proof (Hacc s eq_refl) as Hs.
        split.
        -- intros a' E. inversion E; subst a'.
           destruct (String.ltb m a) eqn:M; [|reflexivity].
           rewrite (ltb_trans m a s M L) in Hs. discriminate.
        -- intros x [<-|I]; [assumption | now apply Hl].
      * split; [destruct Hin as [E|I]; [now left | right; now right]|].
        pose proof (Hacc a eq_refl) as Ha.
        split.
        -- intros a' E. now inversion E; subst a'.
        -- intros x [<-|I]; [now apply (ltb_not_above m a s) | now apply Hl].
    + split; [destruct Hin as [E|I]; [inversion E; right; now left | right; now right]|].
      split; [discriminate|].
      intros x [<-|I]; [now apply Hacc | now apply Hl].
Qed.

(** [MAX(trade_date)]: a member of the list that nothing in it exceeds. *)
Lemma sql_max_spec l m :
  sql_max l = Some m -> In m l /\ forall x, In x l -> String.ltb m x = false.
Proof.
  intros H. apply sql_max_fold in H as ([E|I] & _ & L); [discriminate|].
  now split.
Qed.

Lemma sql_max_none l : sql_max l = None -> l = [].
Proof.
  destruct l as [|s l]; [reflexivity|]. unfold sql_max. simpl.
  assert (G : forall l' a,
             fold_left
               (fun acc s =>
                  match acc with
                  | None => Some s
                  | Some m => if String.ltb m s then Some s else Some m
                  end) l' (Some a) <> None).
  { induction l' as [|x l' IH]; intros a; simpl; [discriminate|].
    destruct (String.ltb a x); apply IH. }
  intros H. now apply G in H.
Qed.

Lemma insert_code_in c l x : In x (insert_code c l) <-> x = c \/ In x l.
Proof.
  induction l as [|y l IH]; simpl.
  - split; intros [E|[]]; left; congruence.
  - destruct (String.compare c y) eqn:E; simpl.
    + apply String.compare_eq_iff in E. subst.
      split; [intros H; now right | intros [->|H]; [now left | exact H]].
    + split; [intros [H|H]; [left; congruence | now right]
             | intros [H|H]; [left; congruence | now right]].
    + rewrite IH. split; [intros [H|[H|H]] | intros [H|[H|H]]]; auto.
Qed.

(** The instruments the loop visits are those with a stored row. *)
Lemma distinct_sorted_in l x : In x (distinct_sorted l) <-> In x l.
Proof.
  induction l as [|y l IH]; simpl; [tauto|].
  rewrite insert_code_in, IH. split; intros [H|H]; auto.
Qed.

(** [ORDER BY ts_code] over [DISTINCT]: strictly ascending. *)
Lemma insert_code_sorted c l :
  StronglySorted (fun a b => String.ltb a b = true) l ->
  StronglySorted (fun a b => String.ltb a b = true) (insert_code c l).
Proof.
  induction 1 as [|x l S IH F]; simpl.
  - repeat constructor.
  - destruct (String.compare c x) eqn:E.
    + now constructor.
    + assert (L : String.ltb c x = true) by (unfold String.ltb; now rewrite E).
      constructor; [now constructor|].
      constructor; [exact L|].
      rewrite Forall_forall in *. intros y I. exact (ltb_trans c x y L (F y I)).
    + assert (G : String.ltb x c = true).
      { unfold String.ltb. rewrite String.compare_antisym, E. reflexivity. }
      constructor; [exact IH|].
      rewrite Forall_forall in *. intros y I.
      apply insert_code_in in I as [->|I]; [exact G | now apply F].
Qed.

Lemma distinct_sorted_sorted l :
  StronglySorted (fun a b => String.ltb a b = true) (distinct_sorted l).
Proof.
  induction l as [|x l IH]; simpl; [constructor|].
  now apply insert_code_sorted.
Qed.

Lemma distinct_sorted_nodup l : NoDup (distinct_sorted l).
Proof.
  pose proof (distinct_sorted_sorted l) as S.
  induction S as [|x l' S IH F]; constructor; [|exact IH].
  intros I. rewrite Forall_forall in F. apply F in I.
  now rewrite ltb_irrefl in I.
Qed.

Lemma update_loop_events env d start_date end_date codes :
  snd (update_loop env d start_date end_date codes)
  = flat_map (fun code => snd (update_one env d start_date end_date code)) codes.
Proof.
  induction codes as [|c codes IH]; simpl; [reflexivity|].
  destruct (update_one env d start_date end_date c) as [got evs].
  destruct (update_loop env d start_date end_date codes) as [got' evs'].
  simpl in *. now rewrite IH.
Qed.

(** A turn of the loop makes one call of the fetcher or none. *)
Lemma update_one_events env t start_date end_date code :
  snd (update_one env (StockDaily t) start_date end_date code)
  = match get_latest_date_for_stock (StockDaily t) code with
    | Ok latest =>
        match fetch_start_for latest start_date with
        | Some fetch_start => [DataFetcher.Fetch code fetch_start end_date]
        | None => []
        end
    | Raise _ => []
    end.
Proof.
  unfold update_one.
  destruct (get_latest_date_for_stock (StockDaily t) code) as [latest|e];
    [|reflexivity].
  destruct (fetch_start_for latest start_date) as [fs|]; [|reflexivity].
  destruct (DataFetcher.fetch_stock_daily_data _ _ _ _) as [[df|]|e];
    try reflexivity.
  destruct (empty df); [reflexivity|].
  destruct (DataFetcher.format_data_for_storage env df) as [f|e]; [|reflexivity].
  now destruct (empty f).
Qed.

Lemma update_events env days w t :
  database w = StockDaily t ->
  snd (update_incremental_data env days w)
  = flat_map
      (fun code =>
         snd (update_one env (database w)
                (strftime env (today env - days)) (strftime env (today env)) code))
      (distinct_sorted (map ts_code (rows t))).
Proof.
  intros Hdb. unfold update_incremental_data. rewrite Hdb. simpl.
  destruct (distinct_sorted (map ts_code (rows t))) as [|c codes] eqn:D;
    [reflexivity|].
  pose proof (update_loop_events env (StockDaily t)
                (strftime env (today env - days)) (strftime env (today env))
                (c :: codes)) as L.
  destruct (update_loop _ _ _ _ (c :: codes)) as [[|f fs] evs]; simpl in L.
  - exact L.
  - destruct (save_data _ _ _ _) as [w' [[]|e]]; exact L.
Qed.

End PlannerProofs.

Module PlannerTheorems.
Import Pandas DataStorage StorageFacts StringOrder PlannerProofs Samples.

Lemma latest_date_spec t code :
  exists latest,
    get_latest_date_for_stock (StockDaily t) code = Ok latest
    /\ match latest with
       | Some d =>
           d <> "" /\ In d (stored_dates t code)
           /\ forall x, In x (stored_dates t code) -> String.ltb d x = false
       | None => forall x, In x (stored_dates t code) -> x = ""
       end.
Proof.
  unfold get_latest_date_for_stock. simpl. fold (stored_dates t code).
  destruct (sql_max (stored_dates t code)) as [m|] eqn:M.
  - apply sql_max_spec in M as [I L].
    unfold truthy. destruct (String.eqb_spec m "") as [->|N]; simpl.
    + exists None. split; [reflexivity|]. intros x Hx.
      apply L in Hx. apply ltb_false in Hx as [<-|Hx]; [reflexivity|].
      destruct x; discriminate.
    + exists (Some m). repeat split; assumption.
  - apply sql_max_none in M. rewrite M. exists None.
    split; [reflexivity|]. intros x [].
Qed.

(** C2.  On an initialised table the update loop visits the instruments
    that have a stored row, each once, and for each of them, with [latest] the
    greatest stored trade date (none for an instrument without a date) and
    [windowStart] the date [days] before today: with no [latest] it fetches
    from [windowStart] to today; with [latest < windowStart] it fetches
    from [latest] itself to today; otherwise it fetches nothing.  The
    calls of the whole update are those of its instruments, in order. *)
Theorem incremental_window_policy env days w t :
  database w = StockDaily t ->
  let today_s := strftime env (today env) in
  let windowStart := strftime env (today env - days) in
  let calls code := snd (update_one env (database w) windowStart today_s code) in
  (forall code, In code (known_instruments t) <-> In code (map ts_code (rows t)))
  /\ NoDup (known_instruments t)
  /\ snd (update_incremental_data env days w) = flat_map calls (known_instruments t)
  /\ forall code,
       exists latest,
         get_latest_date_for_stock (database w) code = Ok latest
         /\ match latest with
            | None =>
                (forall x, In x (stored_dates t code) -> x = "")
                /\ calls code = [DataFetcher.Fetch code windowStart today_s]
            | Some d =>
                In d (stored_dates t code)
                /\ (forall x, In x (stored_dates t code) -> String.ltb d x = false)
                /\ if String.ltb d windowStart
                   then calls code = [DataFetcher.Fetch code d today_s]
                   else calls code = []
            end.
Proof.
  intros Hdb today_s windowStart calls.
  split; [intros code; apply distinct_sorted_in|].
  split; [apply distinct_sorted_nodup|].
  split; [now apply update_events|].
  intros code. unfold calls. rewrite Hdb, update_one_events.
  destruct (latest_date_spec t code) as (latest & E & S).
  exists latest. split; [exact E|]. rewrite E.
  destruct latest as [d|]; simpl.
  - destruct S as (N & I & L). split; [exact I|]. split; [exact L|].
    unfold truthy. apply String.eqb_neq in N. rewrite N. simpl.
    now destruct (String.ltb d windowStart).
  - now split.
Qed.

Lemma incremental_window_policy_witness :
  snd (update_incremental_data live_env 1 stale_world)
  = flat_map
      (fun code =>
         snd (update_one live_env (database stale_world) "20240109" "20240110" code))
      ["000001"; "000002"; "000003"].
Proof.
  exact (proj1 (proj2 (proj2
           (incremental_window_policy live_env 1 stale_world _ eq_refl)))).
Defined.

(** The update loop never sleeps. *)
Lemma update_never_sleeps env days w :
  existsb is_sleep (snd (update_incremental_data env days w)) = false.
Proof.
  unfold update_incremental_data.
  destruct (negb (check_database_exists (database w))); [reflexivity|].
  destruct (get_all_stock_codes_from_db (database w)) as [[|c codes]|e];
    try reflexivity.
  assert (L : forall cs,
             existsb is_sleep
               (snd (update_loop env (database w) (strftime env (today env - days))
                       (strftime env (today env)) cs)) = false).
  { intros cs. rewrite update_loop_events.
    induction cs as [|x cs IH]; simpl; [reflexivity|].
    rewrite existsb_app, IH, orb_false_r.
    unfold update_one.
    destruct (get_latest_date_for_stock (database w) x) as [latest|e];
      [|reflexivity].
    destruct (fetch_start_for latest _) as [fs|]; [|reflexivity].
    destruct (DataFetcher.fetch_stock_daily_data _ _ _ _) as [[df|]|e];
      try reflexivity.
    destruct (empty df); [reflexivity|].
    destruct (DataFetcher.format_data_for_storage env df) as [f|e]; [|reflexivity].
    now destruct (empty f). }
  specialize (L (c :: codes)).
  destruct (update_loop _ _ _ _ (c :: codes)) as [[|f fs] evs]; simpl in L.
  - exact L.
  - destruct (save_data _ _ _ _) as [w' [[]|e]]; exact L.
Qed.

(** The bootstrap loop sleeps after every call, for a positive delay. *)
Lemma fetch_loop_events env start_date end_date delay codes :
  Qle_bool delay 0 = false ->
  snd (DataFetcher.fetch_loop env start_date end_date delay codes)
  = flat_map
      (fun code => [DataFetcher.Fetch code start_date end_date; DataFetcher.Sleep delay])
      codes.
Proof.
  intros D. induction codes as [|c codes IH]; simpl; [reflexivity|].
  unfold DataFetcher.fetch_one at 1.
  unfold DataFetcher.fetch_stock_daily_data, try_result.
  destruct (DataFetcher.fetch_body env c (Some start_date) (Some end_date))
    as [df|e]; rewrite D;
    destruct (DataFetcher.fetch_loop env start_date end_date delay codes)
      as [got' evs']; simpl in *; now rewrite IH.
Qed.

(** C9, on the code.  With two instruments that both need a fetch, the
    daily update calls the fetcher twice with nothing in between, while
    the bootstrap loop over the same two instruments, with its delay of a
    tenth of a second, sleeps after each call. *)
Theorem incremental_update_has_no_delay :
  snd (DataFetcher.fetch_all_stock_data live_env 365 (1 # 10))
  = [DataFetcher.Fetch "000001" "20230110" "20240110"; DataFetcher.Sleep (1 # 10);
        DataFetcher.Fetch "000002" "20230110" "20240110"; DataFetcher.Sleep (1 # 10)]
  /\ snd (update_incremental_data live_env 1 stale_world)
     = [DataFetcher.Fetch "000001" "20240103" "20240110";
        DataFetcher.Fetch "000002" "20240105" "20240110"].
Proof. vm_compute. repeat split. Qed.

End PlannerTheorems.

(** ** The fetcher and the formatter *)

Module FetcherProofs.
Import Pandas DataFetcher FetcherFacts.

Lemma map_nth_seq {A} (l : list A) (d : A) :
  map (fun i => nth i l d) (seq 0 (List.length l)) = l.
Proof.
  induction l as [|x l IH]; simpl; [reflexivity|].
  f_equal. rewrite <- seq_shift, map_map. exact IH.
Qed.


Lemma nrows_dropna df : nrows (dropna df) = List.length (keep_rows df).
Proof.
  destruct df as [|[n s] df]; [reflexivity|].
  unfold dropna, take. simpl. now rewrite length_map.
Qed.

Lemma row_at_dropna df i :
  i < List.length (keep_rows df) ->
  row_at (dropna df) i = row_at df (nth i (keep_rows df) 0).
Proof.
  intros H. unfold row_at, dropna. rewrite map_map. simpl.
  apply map_ext. intros c. unfold take.
  rewrite (nth_indep _ NA (nth 0 (snd c) NA)) by now rewrite length_map.
  apply (map_nth (fun j => nth j (snd c) NA)).
Qed.

(** [dropna] keeps the rows without a missing cell, in order. *)
Lemma dropna_rows df : to_rows (dropna df) = filter no_null (to_rows df).
Proof.
  unfold to_rows at 1. rewrite nrows_dropna.
  rewrite (map_ext_in _ (fun i => row_at df (nth i (keep_rows df) 0))).
  2:{ intros i I. apply in_seq in I. apply row_at_dropna. lia. }
  rewrite <- (map_map (fun i => nth i (keep_rows df) 0) (row_at df)).
  rewrite map_nth_seq. unfold keep_rows, to_rows.
  now rewrite filter_map_swap.
Qed.




End FetcherProofs.

Module FetcherTheorems.
Import Pandas DataFetcher FetcherFacts FetcherProofs Samples.

(** C6, as the code has it.  [fetch_stock_daily_data] never raises: when
    the provider raises, when it has no table, and when its table is
    empty, the caller gets the same [None]. *)
Theorem fetch_failure_returns_none env code start_date end_date :
  let reply :=
    stock_zh_a_hist env code
      (remove_dashes
         (match start_date with Some d => d | None => strftime env (today env - 365) end))
      (remove_dashes
         (match end_date with Some d => d | None => strftime env (today env) end)) in
  (exists r, fetch_stock_daily_data env code start_date end_date = Ok r)
  /\ (forall e, reply = Raises e ->
                fetch_stock_daily_data env code start_date end_date = Ok None)
  /\ (reply = NoFrame ->
      fetch_stock_daily_data env code start_date end_date = Ok None)
  /\ (forall df, reply = Frame df -> empty df = true ->
                 fetch_stock_daily_data env code start_date end_date = Ok None).
Proof.
  intros reply. unfold fetch_stock_daily_data, fetch_body. fold reply.
  repeat split.
  - destruct reply as [e| |df]; simpl; eauto.
    destruct (empty df); simpl; eauto.
    match goal with |- context [if ?b then _ else _] => destruct b end;
      simpl; eauto.
  - now intros e ->.
  - now intros ->.
  - now intros df -> ->.
Qed.

(** C6, as the specification words it, fails: a provider that raises
    gives no error to the caller, and the call returns what it returns for
    an instrument without data. *)
Lemma provider_error_looks_like_no_data :
  (forall e, fetch_stock_daily_data raising_env "000001"
               (Some "20240109") (Some "20240110") <> Raise e)
  /\ fetch_stock_daily_data raising_env "000001" (Some "20240109") (Some "20240110")
     = fetch_stock_daily_data quiet_env "000001" (Some "20240109") (Some "20240110").
Proof. split; [intros e; vm_compute; discriminate | reflexivity]. Qed.




End FetcherTheorems.

(** ** The validator and the daily job *)

Module ValidatorProofs.
Import DataStorage DataValidator ValidatorFacts.

(** The statistics step of the code looks up a key its own dict never
    holds. *)
Lemma get_detailed_statistics_raises t :
  get_detailed_statistics t = Raise (KeyError "total_records").
Proof.
  unfold get_detailed_statistics. simpl.
  destruct (0 <? _); reflexivity.
Qed.

(** The call returns the results dict whatever its [try] block does. *)
Lemma validate_data_with_outcome ck d :
  validate_data_with ck d
  = match validate_body ck d initial_results with
    | (s, Ok _) => Ok s
    | (s, Raise e) => Ok (after_exception s e)
    end.
Proof.
  unfold validate_data_with, try_except.
  destruct (validate_body ck d initial_results) as [s [[]|e]]; reflexivity.
Qed.

Lemma validate_data_with_ok ck d : exists r, validate_data_with ck d = Ok r.
Proof.
  rewrite validate_data_with_outcome.
  destruct (validate_body ck d initial_results) as [s [[]|e]]; eauto.
Qed.

(** The last two checks of the [try] block, once the report of the first
    two is known. *)
Ltac run_last_checks ck t :=
  destruct (consistency ck t) as [k|e]; [|reflexivity];
  destruct k as [|mk k]; cbn [when nonempty];
  [ unfold ret
  | unfold extend_warnings, modify; cbn [is_valid errors warnings statistics] ];
  destruct (detailed_statistics ck t) as [stats|e];
  unfold update_statistics, modify; cbn [is_valid errors warnings statistics];
  now rewrite ?app_nil_r, <- ?app_assoc.

(** The [try] block on a table with rows, by the outcomes of its checks. *)
Lemma validate_body_stages ck t :
  rows t <> [] ->
  validate_body ck (StockDaily t) initial_results
  = match integrity ck t with
    | Raise e => (mkReport true [] [] (total_only t), Raise e)
    | Ok i =>
        match correctness ck t with
        | Raise e => (mkReport true [] i (total_only t), Raise e)
        | Ok c =>
            let valid := negb (existsb is_severe c) in
            match consistency ck t with
            | Raise e =>
                (mkReport valid (filter is_severe c) (i ++ c) (total_only t), Raise e)
            | Ok k =>
                match detailed_statistics ck t with
                | Raise e =>
                    (mkReport valid (filter is_severe c) (i ++ c ++ k) (total_only t),
                     Raise e)
                | Ok stats =>
                    (mkReport valid (filter is_severe c) (i ++ c ++ k)
                       (dict_update (total_only t) stats), Ok tt)
                end
            end
        end
    end.
Proof.
  intros N. unfold validate_body. simpl.
  destruct (rows t) as [|r0 rs] eqn:R; [contradiction|]. simpl.
  unfold total_only. rewrite R. simpl.
  unfold bind, lift, set_statistic, modify, initial_results. simpl.
  destruct (integrity ck t) as [i|e]; [|reflexivity].
  assert (Wi : forall rep : Report,
             when (nonempty i) (extend_warnings i) rep
             = (mkReport (is_valid rep) (errors rep) (warnings rep ++ i)
                  (statistics rep), Ok tt)).
  { intros [v er wa st]. destruct i; simpl; [now rewrite app_nil_r|reflexivity]. }
  rewrite Wi. simpl.
  destruct (correctness ck t) as [c|e]; [|reflexivity].
  destruct c as [|m c].
  - cbn [when nonempty existsb filter negb]. unfold ret.
    rewrite app_nil_r. run_last_checks ck t.
  - cbn [when nonempty]. unfold extend_warnings, extend_errors, set_invalid, modify.
    cbn [is_valid errors warnings statistics].
    destruct (existsb is_severe (m :: c)) eqn:S; cbn [when negb].
    + cbn [is_valid errors warnings statistics app]. run_last_checks ck t.
    + rewrite (StorageProofs.filter_none is_severe (m :: c)).
      * unfold ret. cbn [is_valid errors warnings statistics app].
        run_last_checks ck t.
      * intros x I. destruct (is_severe x) eqn:X; [|reflexivity].
        assert (existsb is_severe (m :: c) = true)
          by (apply existsb_exists; eauto).
        congruence.
Qed.

End ValidatorProofs.

Module ValidatorTheorems.
Import DataStorage DataValidator ValidatorFacts ValidatorProofs Samples.

(** On every table, [validate_data] of the code ends in its exception
    handler: no report is valid. *)
Lemma validate_data_never_valid env d :
  exists r, validate_data env d = Ok r /\ is_valid r = false.
Proof.
  unfold validate_data. rewrite validate_data_with_outcome.
  destruct d as [| |t].
  - eexists; split; reflexivity.
  - eexists; split; reflexivity.
  - destruct (rows t) as [|r0 rs] eqn:R.
    + unfold validate_body. simpl. rewrite R. eexists; split; reflexivity.
    + rewrite validate_body_stages by (rewrite R; discriminate).
      simpl. rewrite get_detailed_statistics_raises.
      eexists; split; reflexivity.
Qed.

(** The severity rule of the correctness check itself: it reports a
    blocking finding exactly when some row has a blocking defect. *)
Lemma correctness_severity t :
  exists issues,
    check_data_correctness t = Ok issues
    /\ existsb is_severe issues = existsb blocking_row (rows t).
Proof.
  eexists; split; [reflexivity|].
  unfold count_where.
  set (p1 := fun r => sql_where (any_price (fun x => sql_le x 0) r)).
  set (p2 := fun r => sql_where (sql_lt2 (high r) (low r))).
  assert (C : forall (p : Row -> bool) l,
             (0 <? List.length (filter p l)) = existsb p l).
  { intros p l. induction l as [|r l IH]; simpl; [reflexivity|].
    destruct (p r); simpl; [reflexivity|exact IH]. }
  rewrite !existsb_app, !C.
  assert (S : forall b m, is_severe m = false -> existsb is_severe (some_if b m) = false)
    by (intros [] m H; simpl; now rewrite ?H).
  assert (T : forall b m, is_severe m = true -> existsb is_severe (some_if b m) = b)
    by (intros [] m H; simpl; now rewrite ?H).
  rewrite (S _ (PriceOutOfRange _)), (S _ (NegativeVolume _)),
    (S _ (NegativeAmount _)) by reflexivity.
  rewrite (T _ (NonPositivePrice _)), (T _ (HighBelowLow _)) by reflexivity.
  fold p1 p2. rewrite !orb_false_r.
  assert (E : forall l, existsb blocking_row l = existsb p1 l || existsb p2 l).
  { intros l. induction l as [|r l IH]; simpl; [reflexivity|].
    rewrite IH. unfold blocking_row. fold (p1 r) (p2 r).
    destruct (p1 r), (p2 r), (existsb p1 l), (existsb p2 l); reflexivity. }
  rewrite E.
  destruct (existsb p1 (rows t)), (existsb p2 (rows t)); reflexivity.
Qed.

(** C4, on the code.  Eleven bars of one instrument, one of them with
    volume -1 and no other defect: the correctness check reports a
    warning and no blocking finding, and yet the report is not valid,
    because the statistics step raises [KeyError] and the handler marks
    the report invalid.  With close -1 instead, the blocking finding is
    reported as the rule says. *)
Theorem negative_volume_report_is_invalid :
  validate_data live_env (StockDaily negative_volume_table)
  = Ok (mkReport false
          [CheckFailed (KeyError "total_records")]
          [NegativeVolume 1]
          [("total_records", SInt 11)])
  /\ check_data_correctness negative_volume_table = Ok [NegativeVolume 1]
  /\ check_data_correctness negative_close_table
     = Ok [NonPositivePrice 1; PriceOutOfRange 1].
Proof. vm_compute. repeat split. Qed.

(** C10.  [validate_data], with its four checks or any others in their
    place, returns a report and does not raise.  When the [try] block raises, the report
    is the results dict as the exception found it, marked invalid, with
    the message of the exception appended to its errors.  On a table with
    rows this is, for each check that can raise: the total count in the
    statistics, the findings of the checks that ran as warnings, and the
    blocking ones among the correctness findings as errors before the
    message of the exception. *)
Theorem validate_data_total ck d :
  exists r,
    validate_data_with ck d = Ok r
    /\ (forall s e,
          validate_body ck d initial_results = (s, Raise e) ->
          r = after_exception s e)
    /\ (forall t, d = StockDaily t -> rows t <> [] ->
          (forall e, integrity ck t = Raise e ->
             r = mkReport false [CheckFailed e] [] (total_only t))
          /\ (forall i e, integrity ck t = Ok i -> correctness ck t = Raise e ->
                r = mkReport false [CheckFailed e] i (total_only t))
          /\ (forall i c e,
                integrity ck t = Ok i -> correctness ck t = Ok c ->
                consistency ck t = Raise e ->
                r = mkReport false (filter is_severe c ++ [CheckFailed e])
                      (i ++ c) (total_only t))
          /\ (forall i c k e,
                integrity ck t = Ok i -> correctness ck t = Ok c ->
                consistency ck t = Ok k -> detailed_statistics ck t = Raise e ->
                r = mkReport false (filter is_severe c ++ [CheckFailed e])
                      (i ++ c ++ k) (total_only t))).
Proof.
  destruct (validate_data_with_ok ck d) as (r & E). exists r.
  split; [exact E|].
  rewrite validate_data_with_outcome in E.
  split.
  - intros s e B. rewrite B in E. now inversion E.
  - intros t -> N. rewrite (validate_body_stages ck t N) in E.
    repeat split.
    + intros e H. rewrite H in E. now inversion E.
    + intros i e H1 H2. rewrite H1, H2 in E. now inversion E.
    + intros i c e H1 H2 H3. rewrite H1, H2, H3 in E. now inversion E.
    + intros i c k e H1 H2 H3 H4. rewrite H1, H2, H3, H4 in E. now inversion E.
Qed.

End ValidatorTheorems.

Module MainTheorems.
Import DataStorage DataValidator Main ValidatorProofs Samples.

(** C5, as the code has it.  [daily_job] never raises.  When the update
    step returns, with either flag, the job validates the data the update
    left and prints the report.  When the update step raises, the job
    ends in its handler and prints no report. *)
Theorem daily_job_validates_after_update env w :
  snd (daily_job env w) = Ok tt
  /\ match update_incremental_data env 1 w with
     | (w', Ok _, evs) =>
         exists r,
           validate_data env (database w') = Ok r
           /\ fst (daily_job env w) = mkRun w' evs [r]
     | (w', Raise _, evs) => fst (daily_job env w) = mkRun w' evs []
     end.
Proof.
  unfold daily_job, try_except, bind, run_update, run_validation, ret. simpl.
  destruct (update_incremental_data env 1 w) as [[w' [b|e]] evs]; simpl.
  - destruct (validate_data_with_ok (checks env) (database w')) as (r & E).
    unfold validate_data. rewrite E. split; [reflexivity|].
    exists r. split; reflexivity.
  - split; reflexivity.
Qed.

(** C5, as the specification words it, fails: when a commit of the new
    records fails, the update raises and the job prints no report. *)
Lemma failed_commit_skips_validation :
  snd (fst (update_incremental_data live_failing_env 1 stale_world))
  = Raise OperationalError
  /\ printed (fst (daily_job live_failing_env stale_world)) = [].
Proof. vm_compute. split; reflexivity. Qed.

End MainTheorems.

(** ** Storage: what every call of [save_data] keeps *)

Module StorageInvariants.
Import Pandas DataStorage StorageFacts MoreFacts StorageProofs.

(** A property of the table that every successful INSERT of a record of the
    batch keeps is kept by the statements, the chunk loop and the call,
    whatever their outcome. *)
Section Invariant.

Variable records : list DailyBar.
Variable P : Table -> Prop.
Hypothesis P_insert :
  forall ts b t t',
    In b records -> P t -> insert_or_replace ts b t = Ok t' -> P t'.

Lemma executemany_invariant clk batch : forall i t,
  incl batch records -> P t -> P (fst (executemany clk i batch t)).
Proof.
  induction batch as [|b batch IH]; intros i t I H; simpl; [exact H|].
  destruct (insert_or_replace (clk i) b t) as [t'|e] eqn:E; [|exact H].
  apply IH.
  - intros x Hx. apply I. now right.
  - apply (P_insert (clk i) b t t'); [apply I; now left | exact H | exact E].
Qed.

Lemma slice_incl i size : incl (slice records i size) records.
Proof.
  intros x I. unfold slice in I.
  rewrite <- (firstn_skipn i records). apply in_or_app. right.
  rewrite <- (firstn_skipn size (skipn i records)). apply in_or_app. now left.
Qed.

Lemma save_chunks_invariant env size starts : forall k t,
  P t -> P (fst (save_chunks env records size starts k t)).
Proof.
  induction starts as [|i starts IH]; intros k t H; simpl; [exact H|].
  pose proof (executemany_invariant (clock env) (slice records i size) i t
                (slice_incl i size) H) as Q.
  destruct (executemany (clock env) i (slice records i size) t) as [p [[]|e]];
    [|exact H].
  destruct (commit_fails env k); [exact H|].
  apply IH. exact Q.
Qed.

Lemma save_records_invariant env batch_size w t :
  database w = StockDaily t -> P t ->
  exists t',
    database (fst (save_records env records batch_size w)) = StockDaily t' /\ P t'.
Proof.
  intros Hdb H. unfold save_records. rewrite Hdb. simpl.
  destruct (py_range _ _) as [starts|e]; simpl; [|now exists t].
  pose proof (save_chunks_invariant env (Z.to_nat batch_size) starts 0 t H) as Q.
  destruct (save_chunks _ _ _ _ _ _) as [t' [[]|e]]; now exists t'.
Qed.

End Invariant.

Lemma save_data_invariant (P : Table -> Prop) env df batch_size w t :
  (forall ts b t1 t2,
     In b (prepare_records df) -> P t1 -> insert_or_replace ts b t1 = Ok t2 -> P t2) ->
  database w = StockDaily t -> P t ->
  exists t',
    database (fst (save_data env df batch_size w)) = StockDaily t' /\ P t'.
Proof.
  intros HP Hdb H. unfold save_data.
  destruct (empty df); [now exists t|].
  exact (save_records_invariant (prepare_records df) P HP env batch_size w t Hdb H).
Qed.

Lemma insert_ok_inv ts b t t' :
  insert_or_replace ts b t = Ok t' ->
  exists c d,
    bar_ts_code b = Some c /\ bar_trade_date b = Some d
    /\ well_formed b = true
    /\ t' = mkTable
              (filter (fun r => negb (same_key c d r)) (rows t)
               ++ [mkRow (S (last_id t)) c d (bar_open b) (bar_high b) (bar_low b)
                     (bar_close b) (bar_volume b) (bar_amount b) ts ts])
              (S (last_id t)).
Proof.
  unfold insert_or_replace, well_formed.
  destruct (bar_ts_code b) as [c|]; [|discriminate].
  destruct (bar_trade_date b) as [d|]; [|discriminate].
  intros E. inversion E. exists c, d. repeat split.
Qed.

End StorageInvariants.

Module StorageMore.
Import Pandas DataStorage StorageFacts MoreFacts StorageProofs StorageInvariants Samples.

Lemma save_data_no_table env df batch_size w :
  no_table (database w) ->
  no_table (database (fst (save_data env df batch_size w))).
Proof.
  intros N. unfold save_data. destruct (empty df); [exact N|].
  unfold save_records.
  destruct (database w) as [| |t]; [| |contradiction]; simpl;
    destruct (py_range _ _) as [[|i l]|e]; exact I.
Qed.

(** X1.  The UNIQUE constraint holds after every call of [save_data] on a table
    on which it held, whether the call succeeds, fails in a chunk or
    rejects a record. *)
Theorem save_data_keeps_keys_unique env df batch_size w :
  keys_unique (database w) ->
  keys_unique (database (fst (save_data env df batch_size w))).
Proof.
  intros U. destruct (database w) as [| |t] eqn:Hdb.
  - pose proof (save_data_no_table env df batch_size w) as N.
    rewrite Hdb in N. specialize (N I).
    destruct (database (fst (save_data env df batch_size w)));
      [constructor | constructor | contradiction].
  - pose proof (save_data_no_table env df batch_size w) as N.
    rewrite Hdb in N. specialize (N I).
    destruct (database (fst (save_data env df batch_size w)));
      [constructor | constructor | contradiction].
  - destruct (save_data_invariant
                (fun t => NoDup (map bar_key (table_contents t)))
                env df batch_size w t) as (t' & E & N); [|exact Hdb|exact U|].
    + intros ts b t1 t2 _ H Ins.
      pose proof Ins as Ins'.
      apply insert_ok_inv in Ins' as (c & d & _ & _ & W & _).
      destruct (insert_or_replace_wf ts b t1 W) as (t3 & E3 & C3 & _).
      rewrite Ins in E3. inversion E3. subst t3.
      rewrite C3. now apply upsert_keys_unique.
    + rewrite E. exact N.
Qed.

Lemma filter_keeps_distinct_images {A B} (p : A -> bool) (f : A -> B) rows :
  NoDup (map f rows) -> NoDup (map f (filter p rows)).
Proof.
  induction rows as [|x l IH]; simpl; intros N; [constructor|].
  inversion N as [|y ys Hx Hl]; subst.
  destruct (p x); simpl; [|now apply IH].
  constructor; [|now apply IH].
  intros I. apply Hx. apply in_map_iff in I as (z & E & I).
  apply filter_In in I as [I _]. apply in_map_iff. now exists z.
Qed.

Lemma key_in_batch records b c d r :
  In b records ->
  bar_ts_code b = Some c -> bar_trade_date b = Some d ->
  same_key c d r = true ->
  outside_batch records r = false.
Proof.
  intros I Hc Hd K. unfold outside_batch. apply negb_false_iff.
  unfold in_batch. apply existsb_exists. exists b. split; [exact I|].
  unfold same_bar_key. now rewrite Hc, Hd, <- same_key_bar.
Qed.

(** Four stored rows with four keys, and a batch of one record whose key
    is the key of the first of them. *)
Lemma save_data_keeps_keys_unique_witness :
  keys_unique (database stale_world)
  /\ row_count (database stale_world) = 4
  /\ keys_unique (database (fst (save_data later_env corrected_bar 1000 stale_world))).
Proof.
  assert (U : keys_unique (database stale_world)).
  { unfold keys_unique. simpl.
    repeat (constructor; [simpl; intuition discriminate|]). constructor. }
  split; [exact U|]. split; [reflexivity|].
  apply (save_data_keeps_keys_unique later_env corrected_bar 1000 stale_world).
  exact U.
Defined.

(** X2.  [save_data] never deletes or changes a row whose key no record of the
    batch carries: such rows keep their id, their fields and both their
    timestamps, whatever the outcome of the call. *)
Theorem save_data_keeps_other_rows env df batch_size w t :
  database w = StockDaily t ->
  exists t',
    database (fst (save_data env df batch_size w)) = StockDaily t'
    /\ filter (outside_batch (prepare_records df)) (rows t')
       = filter (outside_batch (prepare_records df)) (rows t).
Proof.
  intros Hdb.
  apply (save_data_invariant
           (fun t' => filter (outside_batch (prepare_records df)) (rows t')
                      = filter (outside_batch (prepare_records df)) (rows t))
           env df batch_size w t);
    [|exact Hdb|reflexivity].
  intros ts b t1 t2 I H Ins.
  apply insert_ok_inv in Ins as (c & d & Hc & Hd & _ & ->). simpl.
  rewrite filter_app. simpl.
  rewrite (key_in_batch _ b c d _ I Hc Hd (StorageTheorems.same_key_own _ _ _ _ _ _ _ _ _ _ _)).
  rewrite app_nil_r, <- H. clear H.
  induction (rows t1) as [|r l IH]; simpl; [reflexivity|].
  destruct (same_key c d r) eqn:K; simpl.
  - rewrite (key_in_batch _ b c d r I Hc Hd K). exact IH.
  - destruct (outside_batch (prepare_records df) r); now rewrite IH.
Qed.

Lemma save_data_keeps_other_rows_witness :
  exists t',
    database (fst (save_data later_env corrected_bar 1000 stale_world)) = StockDaily t'
    /\ filter (outside_batch (prepare_records corrected_bar)) (rows t')
       = [bar_row 2 "000001" "20240103"; bar_row 3 "000002" "20240105";
          bar_row 4 "000003" "20240109"].
Proof.
  exact (save_data_keeps_other_rows later_env corrected_bar 1000 stale_world _ eq_refl).
Defined.

(** X3.  AUTOINCREMENT under [INSERT OR REPLACE]: after every call the row ids
    are still distinct and bounded by the counter, the counter has not gone
    down, and every row is a row of before or has an id above the old
    counter; an id is never given twice. *)
Theorem save_data_ids_fresh env df batch_size w t :
  database w = StockDaily t ->
  ids_fresh t ->
  exists t',
    database (fst (save_data env df batch_size w)) = StockDaily t'
    /\ ids_fresh t'
    /\ last_id t <= last_id t'
    /\ Forall (fun r => In r (rows t) \/ last_id t < id r) (rows t').
Proof.
  intros Hdb F.
  apply (save_data_invariant
           (fun t' => ids_fresh t' /\ last_id t <= last_id t'
                      /\ Forall (fun r => In r (rows t) \/ last_id t < id r) (rows t'))
           env df batch_size w t);
    [|exact Hdb|].
  - intros ts b t1 t2 _ ((N & B) & L & O) Ins.
    apply insert_ok_inv in Ins as (c & d & _ & _ & _ & ->). simpl.
    unfold ids_fresh. simpl. rewrite Forall_forall in B, O.
    repeat split.
    + rewrite map_app. apply NoDup_app.
      * now apply filter_keeps_distinct_images.
      * simpl. constructor; [intros []|constructor].
      * intros i I [<-|[]]. apply in_map_iff in I as (r & E & I).
        apply filter_In in I as [I _]. apply B in I. simpl in E. lia.
    + apply Forall_forall. intros r I. apply in_app_or in I as [I|[<-|[]]].
      * apply filter_In in I as [I _]. apply B in I. lia.
      * simpl. lia.
    + lia.
    + apply Forall_forall. intros r I. apply in_app_or in I as [I|[<-|[]]].
      * apply filter_In in I as [I _]. now apply O.
      * right. simpl. lia.
  - split; [exact F|]. split; [lia|].
    apply Forall_forall. intros r I. now left.
Qed.

Lemma save_data_ids_fresh_witness :
  exists t',
    database (fst (save_data quiet_env two_bars 1 fresh_world)) = StockDaily t'
    /\ ids_fresh t'
    /\ last_id empty_table <= last_id t'
    /\ Forall (fun r => In r (rows empty_table) \/ last_id empty_table < id r) (rows t').
Proof.
  apply (save_data_ids_fresh quiet_env two_bars 1 fresh_world empty_table eq_refl).
  split; simpl; constructor.
Defined.

(** X4.  [INSERT OR REPLACE] writes both timestamps of a row at once: on a table
    whose rows have [created_at = updated_at], every call of [save_data]
    leaves a table whose rows have it, so the two columns of a table filled
    by [save_data] alone never differ. *)
Theorem save_data_timestamps_agree env df batch_size w t :
  database w = StockDaily t ->
  timestamps_agree t ->
  exists t',
    database (fst (save_data env df batch_size w)) = StockDaily t'
    /\ timestamps_agree t'.
Proof.
  intros Hdb A.
  apply (save_data_invariant timestamps_agree env df batch_size w t);
    [|exact Hdb|exact A].
  intros ts b t1 t2 _ H Ins.
  apply insert_ok_inv in Ins as (c & d & _ & _ & _ & ->).
  unfold timestamps_agree in *. simpl. rewrite Forall_forall in *.
  intros r I. apply in_app_or in I as [I|[<-|[]]]; [|reflexivity].
  apply filter_In in I as [I _]. now apply H.
Qed.

Lemma save_data_timestamps_agree_witness :
  exists t',
    database (fst (save_data later_env corrected_bar 1000 stale_world)) = StockDaily t'
    /\ timestamps_agree t'.
Proof.
  apply (save_data_timestamps_agree later_env corrected_bar 1000 stale_world _ eq_refl).
  repeat constructor.
Defined.

Lemma prepare_records_length df : List.length (prepare_records df) = nrows df.
Proof. unfold prepare_records. now rewrite length_map, length_seq. Qed.

(** X5.  A [batch_size] that is not positive.  With 0 the call raises
    [ValueError] and changes nothing.  With a negative value the loop has
    no turn: the call returns normally and writes the flag file with the
    full record count, and not one record is stored. *)
Theorem save_data_nonpositive_batch_size env df batch_size w t :
  empty df = false ->
  database w = StockDaily t ->
  (batch_size <= 0)%Z ->
  save_data env df batch_size w
  = if (batch_size =? 0)%Z then (w, Raise ValueError)
    else (mkWorld (StockDaily t) (Some (now env, nrows df)), Ok tt).
Proof.
  intros E Hdb B. unfold save_data. rewrite E.
  unfold save_records, py_range. rewrite Hdb, prepare_records_length. simpl.
  destruct (Z.eqb_spec batch_size 0) as [->|N]; simpl.
  - destruct w as [d f]. simpl in Hdb. now subst d.
  - destruct (Z.ltb_spec batch_size 0); [reflexivity|lia].
Qed.

Lemma save_data_nonpositive_batch_size_witness :
  save_data quiet_env two_bars (-5) fresh_world
  = (mkWorld (StockDaily empty_table) (Some (500, 2)), Ok tt).
Proof.
  exact (save_data_nonpositive_batch_size quiet_env two_bars (-5) fresh_world
           empty_table eq_refl eq_refl ltac:(lia)).
Defined.

(** X6.  Without the table (the file absent, or there without [stock_daily]) a
    call with rows to save raises [OperationalError], stores nothing and
    leaves the flag file alone; it leaves the file behind that the
    connection created. *)
Theorem save_data_without_table env df batch_size w :
  empty df = false ->
  no_table (database w) ->
  (0 < batch_size)%Z ->
  save_data env df batch_size w
  = (mkWorld NoTable (backup_flag w), Raise OperationalError).
Proof.
  intros E N B. unfold save_data. rewrite E.
  unfold save_records. rewrite py_range_pos by assumption.
  rewrite prepare_records_length.
  assert (Hn : 0 < nrows df) by (unfold empty in E; apply Nat.eqb_neq in E; lia).
  assert (Hc : 0 < (nrows df + Z.to_nat batch_size - 1) / Z.to_nat batch_size).
  { pose proof (chunks_cover (nrows df) (Z.to_nat batch_size) ltac:(lia)). nia. }
  destruct ((nrows df + Z.to_nat batch_size - 1) / Z.to_nat batch_size) as [|n];
    [lia|].
  destruct (database w) as [| |t]; [reflexivity|reflexivity|contradiction].
Qed.

Lemma save_data_without_table_witness :
  save_data quiet_env two_bars 1000 (mkWorld NoFile None)
  = (mkWorld NoTable None, Raise OperationalError).
Proof.
  exact (save_data_without_table quiet_env two_bars 1000 (mkWorld NoFile None)
           eq_refl I ltac:(lia)).
Defined.

(** *** One pass *)

Lemma executemany_app clk l1 : forall l2 i t,
  executemany clk i (l1 ++ l2) t
  = match executemany clk i l1 t with
    | (t1, Ok _) => executemany clk (i + List.length l1) l2 t1
    | (t1, Raise e) => (t1, Raise e)
    end.
Proof.
  induction l1 as [|b l1 IH]; intros l2 i t; simpl.
  - now rewrite Nat.add_0_r.
  - destruct (insert_or_replace (clk i) b t) as [t'|e]; [|reflexivity].
    rewrite IH. now replace (S i + List.length l1) with (i + S (List.length l1)) by lia.
Qed.

Lemma firstn_short {A} n (l : list A) :
  List.length (firstn n l) < n -> skipn n l = [].
Proof.
  intros H. apply skipn_all2. rewrite length_firstn in H. lia.
Qed.

Lemma save_chunks_one_pass env records size n : forall j t,
  (forall m, j <= m < j + n -> chunk_fails env records size m = false) ->
  save_chunks env records size (chunk_starts size j n) j t
  = (fst (executemany (clock env) (j * size)
            (firstn (n * size) (skipn (j * size) records)) t), Ok tt).
Proof.
  induction n as [|n IH]; intros j t H; [reflexivity|].
  destruct (chunk_ok env records size j) as [Hwf Hc]; [apply H; lia|].
  destruct (executemany_wf (clock env) _ (j * size) t Hwf) as (t1 & E1 & _).
  unfold chunk_starts in *. simpl map. simpl save_chunks. rewrite E1, Hc.
  rewrite IH by (intros; apply H; lia).
  f_equal. f_equal.
  change (S j * size) with (size + j * size).
  change (S n * size) with (size + n * size).
  rewrite firstn_plus, executemany_app. unfold slice in E1. rewrite E1.
  rewrite skipn_skipn.
  destruct (Nat.eq_dec (List.length (firstn size (skipn (j * size) records))) size)
    as [L|L].
  - rewrite L. now replace (j * size + size) with (size + j * size) by lia.
  - pose proof (firstn_le_length size (skipn (j * size) records)) as B.
    pose proof (firstn_short size (skipn (j * size) records) ltac:(lia)) as Z.
    rewrite skipn_skipn in Z. rewrite Z, firstn_nil. reflexivity.
Qed.

(** Without a failure, the chunk loop leaves the table that one pass over
    all records leaves. *)
Lemma save_records_one_pass env records batch_size w t :
  (0 < batch_size)%Z ->
  database w = StockDaily t ->
  forallb well_formed records = true ->
  (forall k, commit_fails env k = false) ->
  save_records env records batch_size w
  = (mkWorld (StockDaily (fst (executemany (clock env) 0 records t)))
             (Some (now env, List.length records)), Ok tt).
Proof.
  intros Hbs Hdb W C. unfold save_records.
  rewrite Hdb, py_range_pos by assumption. simpl.
  rewrite (save_chunks_one_pass env records (Z.to_nat batch_size) _ 0 t)
    by (intros; now apply no_chunk_fails).
  change (0 * Z.to_nat batch_size) with 0.
  rewrite skipn_0, firstn_all2; [reflexivity|].
  apply chunks_cover. lia.
Qed.

(** X7.  The chunk size does not show in the result: two calls that differ only
    in a positive [batch_size], on well-formed records and without a commit
    failure, leave the same world, row ids and timestamps included. *)
Theorem save_data_batch_size_irrelevant env df size1 size2 w t :
  database w = StockDaily t ->
  (0 < size1)%Z -> (0 < size2)%Z ->
  forallb well_formed (prepare_records df) = true ->
  (forall k, commit_fails env k = false) ->
  save_data env df size1 w = save_data env df size2 w.
Proof.
  intros Hdb H1 H2 W C. unfold save_data. destruct (empty df); [reflexivity|].
  now rewrite !(save_records_one_pass env _ _ w t) by assumption.
Qed.

Lemma save_data_batch_size_irrelevant_witness :
  save_data quiet_env two_bars 1 fresh_world
  = save_data quiet_env two_bars 1000 fresh_world.
Proof.
  apply (save_data_batch_size_irrelevant quiet_env two_bars 1 1000 fresh_world
           empty_table); try reflexivity; lia.
Defined.

(** *** Saving, then reading *)

Lemma upsert_keeps_key y c k :
  (exists x, In x c /\ bar_key x = k) ->
  exists x, In x (upsert y c) /\ bar_key x = k.
Proof.
  intros (x & I & K). unfold upsert.
  destruct (well_formed y) eqn:W; [|now exists x].
  destruct (same_bar_key y x) eqn:S.
  - apply same_bar_key_spec in S as [_ S]. exists y.
    split; [apply in_or_app; right; now left | congruence].
  - exists x. split; [|exact K].
    apply in_or_app. left. apply filter_In. now rewrite S.
Qed.

Lemma upsert_all_keeps_key batch : forall c k,
  (exists x, In x c /\ bar_key x = k) ->
  exists x, In x (upsert_all batch c) /\ bar_key x = k.
Proof.
  induction batch as [|y batch IH]; intros c k H; [exact H|].
  rewrite upsert_all_cons. now apply IH, upsert_keeps_key.
Qed.

(** Every well-formed record of the batch leaves a record under its key. *)
Lemma upsert_all_key_present batch c b :
  In b batch -> well_formed b = true ->
  exists x, In x (upsert_all batch c) /\ bar_key x = bar_key b.
Proof.
  intros I W. apply in_split in I as (l1 & l2 & ->).
  unfold upsert_all. rewrite fold_left_app. simpl.
  apply upsert_all_keeps_key. exists b. split; [|reflexivity].
  rewrite upsert_wf by assumption. apply in_or_app. right. now left.
Qed.

(** X8.  After a successful call with rows to save, [check_data_exists] answers
    true. *)
Theorem check_data_exists_after_save env df batch_size w t :
  database w = StockDaily t ->
  (0 < batch_size)%Z ->
  empty df = false ->
  forallb well_formed (prepare_records df) = true ->
  (forall k, commit_fails env k = false) ->
  check_data_exists (database (fst (save_data env df batch_size w))) = Ok true.
Proof.
  intros Hdb Hbs E W C. unfold save_data. rewrite E.
  destruct (save_records_ok env _ batch_size w t Hbs Hdb W C) as (t' & -> & Ct).
  simpl. unfold check_data_exists. simpl.
  assert (N : 0 < nrows df) by (unfold empty in E; apply Nat.eqb_neq in E; lia).
  rewrite <- prepare_records_length in N.
  destruct (prepare_records df) as [|b l] eqn:R; [simpl in N; lia|].
  simpl in W. apply andb_true_iff in W as [Wb Wl].
  destruct (upsert_all_key_present (b :: l) (table_contents t) b
              (or_introl eq_refl) Wb) as (x & I & _).
  rewrite <- Ct in I. unfold table_contents in I.
  apply in_map_iff in I as (r & _ & I).
  destruct (rows t') as [|r0 rs]; [contradiction|reflexivity].
Qed.

Lemma check_data_exists_after_save_witness :
  check_data_exists (database (fst (save_data quiet_env two_bars 1 fresh_world)))
  = Ok true.
Proof.
  apply (check_data_exists_after_save quiet_env two_bars 1 fresh_world empty_table);
    try reflexivity; lia.
Defined.

(** X9.  Saving, then asking for the latest date: after a successful call, the
    latest date of an instrument is there and is not before the date of any
    record of the batch for that instrument. *)
Theorem latest_date_after_save env df batch_size w t b code date :
  database w = StockDaily t ->
  (0 < batch_size)%Z ->
  forallb well_formed (prepare_records df) = true ->
  (forall k, commit_fails env k = false) ->
  empty df = false ->
  In b (prepare_records df) ->
  bar_ts_code b = Some code ->
  bar_trade_date b = Some date ->
  date <> "" ->
  exists latest,
    get_latest_date_for_stock (database (fst (save_data env df batch_size w))) code
    = Ok (Some latest)
    /\ String.ltb latest date = false.
Proof.
  intros Hdb Hbs W C E I Hc Hd N. unfold save_data. rewrite E.
  destruct (save_records_ok env _ batch_size w t Hbs Hdb W C) as (t' & -> & Ct).
  cbn [fst database].
  assert (Wb : well_formed b = true).
  { rewrite forallb_forall in W. now apply W. }
  destruct (upsert_all_key_present _ (table_contents t) b I Wb) as (x & Ix & K).
  rewrite <- Ct in Ix. unfold table_contents in Ix.
  apply in_map_iff in Ix as (r & <- & Ir).
  unfold bar_key in K. rewrite Hc, Hd in K. simpl in K. injection K as Kc Kd.
  assert (S : In date (stored_dates t' code)).
  { unfold stored_dates. apply in_map_iff. exists r. split; [exact Kd|].
    apply filter_In. split; [exact Ir|]. rewrite Kc. apply String.eqb_refl. }
  destruct (PlannerTheorems.latest_date_spec t' code) as ([m|] & L & P).
  - exists m. split; [exact L|]. destruct P as (_ & _ & P). now apply P.
  - exfalso. apply N. now apply P.
Qed.

Lemma latest_date_after_save_witness :
  exists latest,
    get_latest_date_for_stock
      (database (fst (save_data quiet_env two_bars 1 fresh_world))) "000001"
    = Ok (Some latest)
    /\ String.ltb latest "20240103" = false.
Proof.
  apply (latest_date_after_save quiet_env two_bars 1 fresh_world empty_table
           (mkBar (Some "000001") (Some "20240103") (Some (11 # 1)) (Some (13 # 1))
                  (Some (10 # 1)) (Some (12 # 1)) (Some (2000 # 1)) (Some (20000 # 1))));
    try reflexivity; try lia; try discriminate.
  right. left. reflexivity.
Defined.

End StorageMore.

(** ** The loops over the instruments *)

Module LoopsMore.
Import Pandas DataStorage DataFetcher StorageFacts MoreFacts StringOrder PlannerProofs Samples.

(** X10.  [get_all_stock_codes_from_db]: with the table, the stored codes, each once, in
    strictly ascending byte order; without it, [OperationalError]. *)
Theorem stock_codes_from_db_ascending d :
  match get_all_stock_codes_from_db d with
  | Ok codes =>
      exists t,
        d = StockDaily t
        /\ StronglySorted (fun a b => String.ltb a b = true) codes
        /\ NoDup codes
        /\ forall code, In code codes <-> In code (map ts_code (rows t))
  | Raise e => no_table d /\ e = OperationalError
  end.
Proof.
  destruct d as [| |t]; simpl; try (split; [exact I|reflexivity]).
  exists t. split; [reflexivity|].
  split; [apply distinct_sorted_sorted|].
  split; [apply distinct_sorted_nodup|].
  intros code. apply distinct_sorted_in.
Qed.

Lemma latest_is_truthy d code latest :
  get_latest_date_for_stock d code = Ok (Some latest) -> truthy latest = true.
Proof.
  unfold get_latest_date_for_stock.
  destruct (get_db_connection d) as [| |t]; try discriminate.
  destruct (sql_max _) as [m|]; [|discriminate].
  destruct (truthy m) eqn:T; [|discriminate].
  intros E. inversion E. now subst.
Qed.

Lemma update_one_current env d start_date end_date code :
  current d start_date code ->
  update_one env d start_date end_date code = ([], []).
Proof.
  intros (latest & L & B). unfold update_one. rewrite L.
  unfold fetch_start_for. now rewrite (latest_is_truthy d code latest L), B.
Qed.

Lemma update_loop_current env d start_date end_date codes :
  (forall code, In code codes -> current d start_date code) ->
  update_loop env d start_date end_date codes = ([], []).
Proof.
  induction codes as [|c codes IH]; intros H; simpl; [reflexivity|].
  rewrite (update_one_current env d start_date end_date c) by (apply H; now left).
  rewrite IH by (intros; apply H; now right). reflexivity.
Qed.

(** X11.  When every stored instrument is current, the update calls the provider
    for none of them, writes nothing and returns false. *)
Theorem update_skips_current_storage env days w t :
  database w = StockDaily t ->
  (forall code, In code (known_instruments t) ->
                current (database w) (strftime env (today env - days)) code) ->
  update_incremental_data env days w = (w, Ok false, []).
Proof.
  intros Hdb H. unfold update_incremental_data. rewrite Hdb in *. simpl.
  fold (known_instruments t).
  destruct (known_instruments t) as [|c codes] eqn:K; [reflexivity|].
  now rewrite (update_loop_current env (StockDaily t) _ _ (c :: codes) H).
Qed.

Lemma update_skips_current_storage_witness :
  update_incremental_data live_env 1 current_world = (current_world, Ok false, []).
Proof.
  apply (update_skips_current_storage live_env 1 current_world
           (mkTable [bar_row 4 "000003" "20240109"] 4) eq_refl).
  intros code [<-|[]]. exists "20240109". split; reflexivity.
Defined.

(** X12.  A false return of the update means that nothing was written: the
    world is the one before the call. *)
Theorem update_false_changes_nothing env days w w' evs :
  update_incremental_data env days w = (w', Ok false, evs) -> w' = w.
Proof.
  unfold update_incremental_data.
  destruct (negb (check_database_exists (database w))); [congruence|].
  destruct (get_all_stock_codes_from_db (database w)) as [[|c codes]|e];
    try congruence.
  destruct (update_loop _ _ _ _ _) as [[|f fs] evs0]; [congruence|].
  destruct (save_data _ _ _ _) as [w1 [[]|e]]; congruence.
Qed.

Lemma update_false_changes_nothing_witness :
  fst (fst (update_incremental_data quiet_env 1 stale_world)) = stale_world.
Proof.
  apply (update_false_changes_nothing quiet_env 1 stale_world _
           (snd (update_incremental_data quiet_env 1 stale_world))).
  reflexivity.
Defined.

(** *** The bootstrap loop *)

Lemma fetch_loop_app env start_date end_date delay l1 : forall l2,
  fetch_loop env start_date end_date delay (l1 ++ l2)
  = (fst (fetch_loop env start_date end_date delay l1)
     ++ fst (fetch_loop env start_date end_date delay l2),
     snd (fetch_loop env start_date end_date delay l1)
     ++ snd (fetch_loop env start_date end_date delay l2)).
Proof.
  induction l1 as [|c l1 IH]; intros l2; simpl.
  - now destruct (fetch_loop env start_date end_date delay l2).
  - rewrite IH.
    destruct (fetch_one env start_date end_date delay c) as [got evs].
    destruct (fetch_loop env start_date end_date delay l1) as [got1 evs1].
    simpl. now rewrite !app_assoc.
Qed.

Lemma fetch_failing env code start_date end_date :
  provider_fails_for env code ->
  fetch_stock_daily_data env code (Some start_date) (Some end_date) = Ok None.
Proof.
  intros F. unfold fetch_stock_daily_data, fetch_body.
  destruct (F (remove_dashes start_date) (remove_dashes end_date)) as (x & ->).
  reflexivity.
Qed.

(** X13.  One instrument's failure does not abort the batch: an instrument for
    which the provider raises adds no frame, and the frames collected for
    the instruments before and after it are those collected without it. *)
Theorem fetch_loop_isolates_failure env start_date end_date delay l1 code l2 :
  provider_fails_for env code ->
  fst (fetch_loop env start_date end_date delay (l1 ++ code :: l2))
  = fst (fetch_loop env start_date end_date delay (l1 ++ l2)).
Proof.
  intros F. rewrite !fetch_loop_app. simpl. f_equal.
  unfold fetch_one. rewrite (fetch_failing env code _ _ F).
  destruct (Qle_bool delay 0);
    now destruct (fetch_loop env start_date end_date delay l2).
Qed.

(** Three instruments, the provider raising for the second only: the
    frames of the first and the third are collected, as without it. *)
Lemma fetch_loop_isolates_failure_witness :
  fst (fetch_loop middle_fails_env "20230110" "20240110" (1 # 10)
         (["000001"] ++ "000002" :: ["000003"]))
  = fst (fetch_loop middle_fails_env "20230110" "20240110" (1 # 10)
           (["000001"] ++ ["000003"]))
  /\ List.length
       (fst (fetch_loop middle_fails_env "20230110" "20240110" (1 # 10)
               (["000001"] ++ ["000003"]))) = 2.
Proof.
  split; [|reflexivity].
  apply (fetch_loop_isolates_failure middle_fails_env "20230110" "20240110" (1 # 10)
           ["000001"] "000002" ["000003"]).
  intros s e. exists ProviderError. reflexivity.
Defined.

(** X14.  The full fetch asks for every listed instrument once, in the order of
    the listing, each time with the window from [days] before today to
    today, whatever the provider answers and whatever the delay. *)
Theorem fetch_all_requests env days delay codes :
  stock_info_a_code_name env = Ok codes ->
  requests (snd (fetch_all_stock_data env days delay))
  = map (fun code =>
           Fetch code (strftime env (today env - days)) (strftime env (today env)))
        codes.
Proof.
  intros L. unfold fetch_all_stock_data, get_all_stock_codes. rewrite L. simpl.
  assert (R : forall cs,
             requests (snd (fetch_loop env (strftime env (today env - days))
                              (strftime env (today env)) delay cs))
             = map (fun code =>
                      Fetch code (strftime env (today env - days))
                            (strftime env (today env))) cs).
  { induction cs as [|c cs IH]; [reflexivity|].
    change (c :: cs) with ([c] ++ cs). rewrite fetch_loop_app. simpl snd.
    unfold requests in *. rewrite filter_app, IH. simpl.
    destruct (fetch_one _ _ _ _ c) as [got evs] eqn:E.
    unfold fetch_one in E.
    destruct (fetch_stock_daily_data _ _ _ _) as [df|e];
      [destruct (Qle_bool delay 0)|]; inversion E; reflexivity. }
  specialize (R codes).
  destruct (fetch_loop _ _ _ _ codes) as [[|f fs] evs]; exact R.
Qed.

Lemma fetch_all_requests_witness :
  requests (snd (fetch_all_stock_data live_env 365 (1 # 10)))
  = [Fetch "000001" "20230110" "20240110"; Fetch "000002" "20230110" "20240110"].
Proof.
  exact (fetch_all_requests live_env 365 (1 # 10) ["000001"; "000002"] eq_refl).
Defined.

End LoopsMore.

(** ** The fetcher and the formatter, further *)

Module FetcherMore.
Import Pandas DataFetcher DataStorage StorageFacts FetcherFacts MoreFacts FetcherProofs Samples.

Lemma remove_dashes_idempotent s : remove_dashes (remove_dashes s) = remove_dashes s.
Proof.
  induction s as [|c s IH]; simpl; [reflexivity|].
  destruct (Ascii.eqb c "-") eqn:E; [exact IH|].
  simpl. now rewrite E, IH.
Qed.

(** X15.  The fetcher takes its dates with or without dashes: [2024-01-10] and
    [20240110] give the same call of the provider and the same result. *)
Theorem fetch_accepts_dashed_dates env code start_date end_date :
  fetch_stock_daily_data env code (Some start_date) (Some end_date)
  = fetch_stock_daily_data env code
      (Some (remove_dashes start_date)) (Some (remove_dashes end_date)).
Proof.
  unfold fetch_stock_daily_data, fetch_body.
  now rewrite !remove_dashes_idempotent.
Qed.

Lemma getcol_setcol_same name s df : getcol name (setcol name s df) = Some s.
Proof.
  induction df as [|[n s0] df IH]; simpl.
  - now rewrite String.eqb_refl.
  - destruct (String.eqb n name) eqn:E; simpl; rewrite E; [reflexivity|exact IH].
Qed.

Lemma getcol_setcol_other name other s df :
  other <> name -> getcol name (setcol other s df) = getcol name df.
Proof.
  intros N. induction df as [|[n s0] df IH]; simpl.
  - apply String.eqb_neq in N. now rewrite N.
  - destruct (String.eqb n other) eqn:E; simpl.
    + apply String.eqb_eq in E. subst n.
      apply String.eqb_neq in N. now rewrite N.
    + destruct (String.eqb n name); [reflexivity|exact IH].
Qed.

Lemma has_column_setcol col name s df :
  has_column col df = true -> has_column col (setcol name s df) = true.
Proof.
  unfold has_column. intros H.
  destruct (string_dec name col) as [->|N].
  - now rewrite getcol_setcol_same.
  - now rewrite getcol_setcol_other.
Qed.

Lemma nrows_setcol name s df :
  List.length s = nrows df -> nrows (setcol name s df) = nrows df.
Proof.
  destruct df as [|[n s0] df]; simpl; [easy|].
  destruct (String.eqb n name); simpl; easy.
Qed.

Lemma nrows_strip_columns df : nrows (strip_columns df) = nrows df.
Proof. now destruct df as [|[n s] df]. Qed.

(** X16.  What a successful fetch returns: the provider's table, which has rows,
    with its required columns and a code column that holds the requested
    instrument in every row. *)
Theorem fetch_success_shape env code start_date end_date out :
  fetch_stock_daily_data env code start_date end_date = Ok (Some out) ->
  0 < nrows out
  /\ forallb (fun col => has_column col out) required_columns = true
  /\ getcol "股票代码" out = Some (repeat (Str code) (nrows out)).
Proof.
  unfold fetch_stock_daily_data, fetch_body, try_result.
  destruct (stock_zh_a_hist env code _ _) as [e| |df]; try discriminate.
  destruct (empty df) eqn:E; [discriminate|].
  destruct (forallb _ required_columns) eqn:R; [|discriminate].
  intros H. inversion H as [O]. clear H.
  assert (N : nrows (setcol "股票代码"
                       (repeat (Str code) (nrows (strip_columns df)))
                       (strip_columns df)) = nrows df).
  { rewrite nrows_setcol by apply repeat_length. apply nrows_strip_columns. }
  rewrite N. split; [|split].
  - unfold empty in E. apply Nat.eqb_neq in E. lia.
  - rewrite forallb_forall in *. intros col I. apply has_column_setcol. now apply R.
  - now rewrite getcol_setcol_same, nrows_strip_columns.
Qed.

Lemma fetch_success_shape_witness :
  exists out,
    fetch_stock_daily_data live_env "000001" (Some "2024-01-09") None = Ok (Some out)
    /\ 0 < nrows out
    /\ getcol "股票代码" out = Some (repeat (Str "000001") (nrows out)).
Proof.
  eexists. split; [reflexivity|].
  destruct (fetch_success_shape live_env "000001" (Some "2024-01-09") None _ eq_refl)
    as (N & _ & C).
  split; [exact N | exact C].
Defined.

(** *** The formatter *)

Lemma columns_setcol name s df :
  incl (columns (setcol name s df)) (name :: columns df).
Proof.
  induction df as [|[n s0] df IH]; simpl.
  - intros x [<-|[]]. now left.
  - destruct (String.eqb n name) eqn:E; simpl.
    + intros x [<-|I]; right; [now left | now right].
    + intros x [<-|I]; [right; now left|].
      apply IH in I as [<-|I]; [now left | right; now right].
Qed.

Lemma columns_dropna df : columns (dropna df) = columns df.
Proof. unfold columns, dropna. rewrite map_map. reflexivity. Qed.

Lemma rename_columns_names df :
  incl (columns (rename_columns df)) (map snd column_mapping).
Proof.
  unfold rename_columns.
  assert (G : forall l acc,
             incl (columns acc) (map snd column_mapping) ->
             incl (map snd l) (map snd column_mapping) ->
             incl (columns
                     (fold_left
                        (fun formatted_df m =>
                           match getcol (fst m) df with
                           | Some s => setcol (snd m) s formatted_df
                           | None => formatted_df
                           end) l acc))
                  (map snd column_mapping)).
  { induction l as [|m l IH]; intros acc A L; simpl; [exact A|].
    apply IH; [|intros x I; apply L; now right].
    destruct (getcol (fst m) df); [|exact A].
    intros x I. apply columns_setcol in I as [<-|I]; [apply L; now left | now apply A]. }
  apply G; [intros x []|apply incl_refl].
Qed.

Lemma coerce_numeric_names env df :
  incl (columns (coerce_numeric env df)) (columns df).
Proof.
  unfold coerce_numeric. generalize numeric_columns. intros l. revert df.
  induction l as [|col l IH]; intros df; simpl; [apply incl_refl|].
  destruct (getcol col df) as [s|] eqn:G; [|apply IH].
  intros x I. apply IH in I. apply columns_setcol in I as [<-|I]; [|exact I].
  clear -G. induction df as [|[n s0] df IHdf]; simpl in *; [discriminate|].
  destruct (String.eqb_spec n col) as [->|N]; [now left | right; now apply IHdf].
Qed.

(** X17.  What the formatter returns: a table without a single missing cell,
    whose columns are among the eight canonical names. *)
Theorem format_output_has_no_null env df out :
  format_data_for_storage env df = Ok out ->
  Forall (fun row => no_null row = true) (to_rows out)
  /\ incl (columns out) (map snd column_mapping).
Proof.
  unfold format_data_for_storage.
  destruct (empty df); [intros H; inversion H; split; [constructor|intros x []]|].
  assert (D : forall f,
             incl (columns f) (map snd column_mapping) ->
             Forall (fun row => no_null row = true) (to_rows (dropna (coerce_numeric env f)))
             /\ incl (columns (dropna (coerce_numeric env f))) (map snd column_mapping)).
  { intros f I. split.
    - rewrite dropna_rows. apply Forall_forall. intros row R.
      now apply filter_In in R.
    - rewrite columns_dropna. intros x Hx. apply I. now apply coerce_numeric_names in Hx. }
  pose proof (rename_columns_names df) as R.
  destruct (getcol "trade_date" (rename_columns df)) as [s|]; simpl.
  - destruct (to_datetime env s) as [ds|e]; simpl; [|discriminate].
    intros H. inversion H. apply D.
    intros x I. apply columns_setcol in I as [<-|I]; [now left | now apply R].
  - intros H. inversion H. now apply D.
Qed.

Lemma format_output_has_no_null_witness :
  Forall (fun row => no_null row = true)
         (to_rows (dropna (coerced_frame live_env
                             (map Some [20000%Z]) [Str "000001"]
                             [Num (10 # 1)] [Num (11 # 1)] [Num (12 # 1)]
                             [Num (9 # 1)] [Num (1000 # 1)] [Num (10000 # 1)]))).
Proof.
  exact (proj1 (format_output_has_no_null live_env
                  (setcol "股票代码" [Str "000001"] one_bar) _ eq_refl)).
Defined.





Lemma nth_take_kind (Q : Cell -> bool) keep col i :
  Q NA = true -> forallb Q col = true -> Q (nth i (take keep col) NA) = true.
Proof.
  intros HNA H. unfold take.
  destruct (nth_in_or_default i (map (fun j => nth j col NA) keep) NA) as [I| ->];
    [|exact HNA].
  apply in_map_iff in I as (j & <- & _).
  destruct (nth_in_or_default j col NA) as [I| ->]; [|exact HNA].
  rewrite forallb_forall in H. now apply H.
Qed.

Lemma dt_strftime_kind env ds : forallb not_number (dt_strftime env ds) = true.
Proof.
  induction ds as [|[z|] ds IH]; simpl; [reflexivity|exact IH|exact IH].
Qed.

Lemma to_numeric_kind env s : forallb not_text (to_numeric env s) = true.
Proof.
  induction s as [|cell s IH]; [reflexivity|].
  destruct cell as [|q|x]; simpl; try exact IH.
  destruct (parse_number env x); exact IH.
Qed.

Lemma text_cell x : negb (isna x) = true -> not_number x = true ->
  exists s, x = Str s.
Proof. destruct x; simpl; try discriminate. eauto. Qed.

Lemma number_cell x : negb (isna x) = true -> not_text x = true ->
  exists q, x = Num q.
Proof. destruct x; simpl; try discriminate. eauto. Qed.

(** X19.  From the formatter to [save_data]: for a raw table with the eight source
    columns, dates that parse and a code column without numbers, every
    record that [save_data] prepares from the formatted table has all its
    eight fields, so none of them can violate [NOT NULL]. *)
Theorem formatted_records_complete env df dates codes o c h l v a ds :
  empty df = false ->
  getcol "日期" df = Some dates ->
  getcol "股票代码" df = Some codes ->
  getcol "开盘" df = Some o ->
  getcol "收盘" df = Some c ->
  getcol "最高" df = Some h ->
  getcol "最低" df = Some l ->
  getcol "成交量" df = Some v ->
  getcol "成交额" df = Some a ->
  to_datetime env dates = Ok ds ->
  forallb not_number codes = true ->
  exists out,
    format_data_for_storage env df = Ok out
    /\ forallb complete (prepare_records out) = true
    /\ forallb well_formed (prepare_records out) = true.
Proof.
  intros He H1 H2 H3 H4 H5 H6 H7 H8 Hd Hk.
  unfold format_data_for_storage. rewrite He.
  unfold rename_columns. simpl. rewrite H1, H2, H3, H4, H5, H6, H7, H8. simpl.
  rewrite Hd. simpl.
  fold (coerced_frame env ds codes o c h l v a).
  set (F := coerced_frame env ds codes o c h l v a).
  exists (dropna F). split; [reflexivity|].
  assert (G : forall b, In b (prepare_records (dropna F)) -> complete b = true).
  { intros b I. unfold prepare_records in I.
    apply in_map_iff in I as (i & <- & I).
    assert (N : no_null (row_at (dropna F) i) = true).
    { assert (R : In (row_at (dropna F) i) (to_rows (dropna F)))
        by (unfold to_rows; now apply in_map).
      rewrite dropna_rows in R. now apply filter_In in R. }
    unfold F, coerced_frame, dropna, row_at, no_null in N. simpl in N.
    repeat (apply andb_true_iff in N; destruct N as [?X N]).
    unfold record_of_row, row_get, F, coerced_frame, dropna. simpl.
    destruct (text_cell _ X (nth_take_kind not_number _ _ i eq_refl (dt_strftime_kind env ds)))
      as (s1 & ->).
    destruct (text_cell _ X0 (nth_take_kind not_number _ _ i eq_refl Hk)) as (s2 & ->).
    destruct (number_cell _ X1 (nth_take_kind not_text _ _ i eq_refl (to_numeric_kind env o)))
      as (q1 & ->).
    destruct (number_cell _ X2 (nth_take_kind not_text _ _ i eq_refl (to_numeric_kind env c)))
      as (q2 & ->).
    destruct (number_cell _ X3 (nth_take_kind not_text _ _ i eq_refl (to_numeric_kind env h)))
      as (q3 & ->).
    destruct (number_cell _ X4 (nth_take_kind not_text _ _ i eq_refl (to_numeric_kind env l)))
      as (q4 & ->).
    destruct (number_cell _ X5 (nth_take_kind not_text _ _ i eq_refl (to_numeric_kind env v)))
      as (q5 & ->).
    destruct (number_cell _ X6 (nth_take_kind not_text _ _ i eq_refl (to_numeric_kind env a)))
      as (q6 & ->).
    reflexivity. }
  split; apply forallb_forall; intros b I.
  - now apply G.
  - apply G in I. unfold complete in I. unfold well_formed.
    destruct (bar_ts_code b); [|discriminate].
    destruct (bar_trade_date b); [reflexivity|discriminate].
Qed.

Lemma formatted_records_complete_witness :
  exists out,
    format_data_for_storage live_env ten_rows = Ok out
    /\ forallb complete (prepare_records out) = true
    /\ forallb well_formed (prepare_records out) = true.
Proof.
  apply (formatted_records_complete live_env ten_rows
           (map Str ["2024-01-01"; "2024-01-02"; "2024-01-03"; "2024-01-04";
                     "2024-01-05"; "2024-01-06"; "2024-01-07"; "2024-01-08";
                     "2024-01-09"; "2024-01-10"])
           (repeat (Str "000001") 10)
           (repeat (Num (10 # 1)) 10)
           [Num (11 # 1); Num (11 # 1); Num (11 # 1); NA; Num (11 # 1);
            Num (11 # 1); Num (11 # 1); Num (11 # 1); Num (11 # 1); Num (11 # 1)]
           (repeat (Num (12 # 1)) 10)
           (repeat (Num (9 # 1)) 10)
           (repeat (Num (1000 # 1)) 10)
           (repeat (Num (10000 # 1)) 10)
           (map Some [19991; 19992; 19993; 19994; 19995;
                      19996; 19997; 19998; 19999; 20000]%Z));
    reflexivity.
Defined.

End FetcherMore.

(** ** The validator and the statistics, further *)

Module ValidatorMore.
Import DataStorage DataValidator DataStorageStatistics.
Import StorageFacts MoreFacts ValidatorFacts StringOrder PlannerProofs ValidatorProofs Samples.

(** X20.  The report of [validate_data] on the code, for every state of the
    storage.  On a table with rows it is never valid: its errors are the
    blocking findings followed by the [KeyError] of the statistics step, its
    warnings are the findings of the three checks in order, and its
    statistics hold the total count and nothing else. *)
Theorem validate_data_report env d :
  exists integrity_issues correctness_issues consistency_issues,
    validate_data env d
    = Ok (match d with
          | NoFile => mkReport false [DatabaseFileMissing] [] []
          | NoTable => mkReport false [TableMissing] [] []
          | StockDaily t =>
              match rows t with
              | [] => mkReport false [NoData] [] []
              | _ :: _ =>
                  mkReport false
                    (filter is_severe correctness_issues
                     ++ [CheckFailed (KeyError "total_records")])
                    (integrity_issues ++ correctness_issues ++ consistency_issues)
                    (total_only t)
              end
          end)
    /\ forall t, d = StockDaily t ->
         check_data_integrity t = Ok integrity_issues
         /\ check_data_correctness t = Ok correctness_issues
         /\ check_data_consistency env t = Ok consistency_issues.
Proof.
  unfold validate_data. rewrite validate_data_with_outcome.
  destruct d as [| |t].
  - exists [], [], []. split; [reflexivity|discriminate].
  - exists [], [], []. split; [reflexivity|discriminate].
  - assert (exists i, check_data_integrity t = Ok i) as (i & Ei)
      by (eexists; reflexivity).
    assert (exists c, check_data_correctness t = Ok c) as (c & Ec)
      by (eexists; reflexivity).
    assert (exists k, check_data_consistency env t = Ok k) as (k & Ek)
      by (eexists; reflexivity).
    exists i, c, k. split.
    + destruct (rows t) as [|r0 rs] eqn:R.
      * unfold validate_body. simpl. rewrite R. reflexivity.
      * rewrite validate_body_stages by (rewrite R; discriminate).
        cbn [integrity correctness consistency detailed_statistics checks].
        rewrite Ei, Ec, Ek, get_detailed_statistics_raises. reflexivity.
    + intros t0 E. inversion E. subst t0. now split; [|split].
Qed.

Lemma keys_unique_rows t :
  keys_unique (StockDaily t) -> NoDup (map row_key (rows t)).
Proof.
  unfold keys_unique, contents, table_contents. rewrite map_map. intros N.
  apply (NoDup_map_inv (fun k => (Some (fst k), Some (snd k)))).
  now rewrite map_map.
Qed.

(** X21.  On a table that keeps the UNIQUE constraint, the integrity check finds
    no null key and no duplicate group: its only possible finding is the
    number of rows whose date is not eight digits. *)
Theorem integrity_finds_no_duplicates t :
  keys_unique (StockDaily t) ->
  check_data_integrity t
  = Ok (some_if (0 <? List.length (filter bad_date (rows t)))
                (BadDateFormat (List.length (filter bad_date (rows t))))).
Proof.
  intros U. apply keys_unique_rows in U.
  unfold check_data_integrity, count_where.
  rewrite (StorageProofs.filter_none (fun _ : Row => false)) by reflexivity.
  rewrite (StorageProofs.filter_none
             (fun k => 1 <? count_occ key_eq_dec (map row_key (rows t)) k)).
  - reflexivity.
  - intros k _. apply Nat.ltb_ge.
    now apply (proj1 (NoDup_count_occ key_eq_dec (map row_key (rows t)))).
Qed.

Lemma integrity_finds_no_duplicates_witness :
  check_data_integrity negative_volume_table = Ok [].
Proof.
  apply (integrity_finds_no_duplicates negative_volume_table).
  unfold keys_unique. vm_compute.
  repeat (constructor; [simpl; intuition discriminate|]). constructor.
Defined.

Lemma sql_where_or a b : sql_where (sql_or a b) = sql_where a || sql_where b.
Proof. destruct a as [[|]|], b as [[|]|]; reflexivity. Qed.

Lemma nonpositive_is_below_band x :
  sql_where (sql_le x 0) = true -> sql_where (sql_lt x (1 # 100)) = true.
Proof.
  destruct x as [v|]; simpl; [|discriminate].
  unfold Qlt_bool. destruct (Qle_bool v 0) eqn:L; [|discriminate].
  intros _. apply Qle_bool_iff in L.
  destruct (Qle_bool (1 # 100) v) eqn:G; [|reflexivity].
  apply Qle_bool_iff in G.
  assert (C : (1 # 100 <= 0)%Q) by (eapply Qle_trans; eassumption).
  unfold Qle in C. simpl in C. lia.
Qed.

Lemma nonpositive_out_of_range r :
  nonpositive_price r = true -> price_out_of_range r = true.
Proof.
  unfold nonpositive_price, price_out_of_range, any_price.
  rewrite !sql_where_or.
  intros H. apply orb_true_iff. right.
  repeat (apply orb_true_iff in H; destruct H as [H|H]);
    apply nonpositive_is_below_band in H; rewrite H;
    now rewrite ?orb_true_r.
Qed.

Lemma filter_length_le {A} (p q : A -> bool) (l : list A) :
  (forall x, p x = true -> q x = true) ->
  List.length (filter p l) <= List.length (filter q l).
Proof.
  intros H. induction l as [|x l IH]; simpl; [lia|].
  destruct (p x) eqn:P.
  - rewrite (H x P). simpl. lia.
  - destruct (q x); simpl; lia.
Qed.

(** X22.  The two price checks overlap: a price that is not positive is also
    below the plausible band, so whenever the blocking finding on
    non-positive prices is reported, the warning on prices out of range is
    reported as well, with a count that is not smaller. *)
Theorem nonpositive_price_reported_twice t :
  exists issues,
    check_data_correctness t = Ok issues
    /\ forall n, In (NonPositivePrice n) issues ->
         exists m, n <= m /\ In (PriceOutOfRange m) issues.
Proof.
  eexists. split; [reflexivity|].
  unfold count_where.
  fold nonpositive_price. 
  set (n1 := List.length (filter _ (rows t))).
  intros n I.
  apply in_app_or in I as [I|I].
  - assert (E : n1 = List.length (filter nonpositive_price (rows t))) by reflexivity.
    destruct (0 <? n1) eqn:P; simpl in I; [|contradiction].
    destruct I as [I|[]]. inversion I. subst n. clear I.
    exists (List.length (filter price_out_of_range (rows t))).
    pose proof (filter_length_le nonpositive_price price_out_of_range (rows t)
                  nonpositive_out_of_range) as Le.
    split; [lia|].
    apply in_or_app. right. apply in_or_app. right. apply in_or_app. left.
    fold price_out_of_range.
    apply Nat.ltb_lt in P.
    assert (Q : (0 <? List.length (filter price_out_of_range (rows t))) = true)
      by (apply Nat.ltb_lt; lia).
    unfold price_out_of_range in *. rewrite Q. now left.
  - exfalso.
    repeat (apply in_app_or in I; destruct I as [I|I]);
      match type of I with
      | In _ (some_if ?b _) => destruct b; simpl in I;
                               [destruct I as [I|[]]; discriminate | contradiction]
      end.
Qed.

Lemma sql_min_fold l : forall acc m,
  fold_left
    (fun acc s =>
       match acc with
       | None => Some s
       | Some m => if String.ltb s m then Some s else Some m
       end) l acc = Some m ->
  (acc = Some m \/ In m l)
  /\ (forall a, acc = Some a -> String.ltb a m = false)
  /\ (forall x, In x l -> String.ltb x m = false).
Proof.
  induction l as [|s l IH]; intros acc m H; simpl in H.
  - subst. split; [now left|]. split; [|intros x []].
    intros a E. inversion E. apply ltb_irrefl.
  - apply IH in H as (Hin & Hacc & Hl).
    destruct acc as [a|].
    + destruct (String.ltb s a) eqn:L.
      * split; [destruct Hin as [E|I]; [inversion E; right; now left | right; now right]|].
        pose proof (Hacc s eq_refl) as Hs.
        split.
        -- intros a' E. inversion E; subst a'.
           destruct (String.ltb a m) eqn:M; [|reflexivity].
           rewrite (ltb_trans s a m L M) in Hs. discriminate.
        -- intros x [<-|I]; [assumption | now apply Hl].
      * split; [destruct Hin as [E|I]; [now left | right; now right]|].
        pose proof (Hacc a eq_refl) as Ha.
        split.
        -- intros a' E. now inversion E; subst a'.
        -- intros x [<-|I]; [now apply (ltb_not_above s a m) | now apply Hl].
    + split; [destruct Hin as [E|I]; [inversion E; right; now left | right; now right]|].
      split; [discriminate|].
      intros x [<-|I]; [now apply Hacc | now apply Hl].
Qed.

Lemma sql_min_spec l m :
  sql_min l = Some m -> In m l /\ forall x, In x l -> String.ltb x m = false.
Proof.
  intros H. apply sql_min_fold in H as ([E|I] & _ & L); [discriminate|].
  now split.
Qed.

Lemma sql_min_some l x : In x l -> exists m, sql_min l = Some m.
Proof.
  destruct l as [|s l]; [contradiction|]. intros _. unfold sql_min. simpl.
  generalize s. induction l as [|y l IH]; intros a; simpl; [eauto|].
  destruct (String.ltb y a); apply IH.
Qed.

Lemma sql_max_some l x : In x l -> exists m, sql_max l = Some m.
Proof.
  intros I. destruct (sql_max l) as [m|] eqn:E; [eauto|].
  apply sql_max_none in E. subst. contradiction.
Qed.

Lemma distinct_count l :
  List.length (nodup string_dec l) = List.length (distinct_sorted l).
Proof.
  apply Permutation_length, NoDup_Permutation.
  - apply NoDup_nodup.
  - apply distinct_sorted_nodup.
  - intros x. rewrite nodup_In, distinct_sorted_in. reflexivity.
Qed.

(** X23.  [get_data_statistics] on a table: the number of rows, the number of
    instruments (as many as the update loop visits), and a date range that
    brackets the date of every stored row. *)
Theorem data_statistics_of_table t :
  exists start finish,
    get_data_statistics (StockDaily t)
    = Ok [("total_records", SInt (List.length (rows t)));
          ("stock_count", SInt (List.length (known_instruments t)));
          ("date_range", SRange start finish)]
    /\ forall r, In r (rows t) ->
         exists a b,
           start = Some a /\ finish = Some b
           /\ String.ltb (trade_date r) a = false
           /\ String.ltb b (trade_date r) = false.
Proof.
  exists (sql_min (map trade_date (rows t))), (sql_max (map trade_date (rows t))).
  split.
  - unfold get_data_statistics, known_instruments. simpl.
    now rewrite distinct_count.
  - intros r I.
    assert (D : In (trade_date r) (map trade_date (rows t))) by now apply in_map.
    destruct (sql_min_some _ _ D) as (a & Ea).
    destruct (sql_max_some _ _ D) as (b & Eb).
    exists a, b. rewrite Ea, Eb. repeat split.
    + apply sql_min_spec in Ea as [_ L]. now apply L.
    + apply sql_max_spec in Eb as [_ L]. now apply L.
Qed.

End ValidatorMore.

(** ** The scheduler: bootstrap, restore, and the daily job on current data *)

Module MainMore.
Import Pandas DataStorage DataValidator Main.
Import StorageFacts MoreFacts StorageProofs StorageInvariants ValidatorProofs Samples.

(** X24.  On a storage that has rows, [initial_setup] calls the provider for
    nothing and leaves the world as it is. *)
Theorem initial_setup_skips_populated env w t :
  database w = StockDaily t ->
  rows t <> [] ->
  initial_setup env w = (w, Ok tt, []).
Proof.
  intros Hdb N. unfold initial_setup. rewrite Hdb. simpl.
  unfold check_data_exists. simpl.
  destruct (rows t) as [|r rs]; [contradiction|]. simpl.
  destruct w as [d f]. simpl in Hdb. now subst d.
Qed.

Lemma initial_setup_skips_populated_witness :
  initial_setup live_env stale_world = (stale_world, Ok tt, []).
Proof.
  apply (initial_setup_skips_populated live_env stale_world _ eq_refl).
  discriminate.
Defined.

(** X25.  On a storage without rows, when the full fetch returns a table and the
    formatter returns rows with their keys, [initial_setup] stores exactly
    the upserts of the formatted records and writes the flag file with
    their number. *)
Theorem initial_setup_bootstraps env w df evs formatted :
  check_data_exists (init_database (database w)) = Ok false ->
  DataFetcher.fetch_all_stock_data env DEFAULT_FETCH_DAYS (1 # 10) = (Ok df, evs) ->
  empty df = false ->
  DataFetcher.format_data_for_storage env df = Ok formatted ->
  empty formatted = false ->
  forallb well_formed (prepare_records formatted) = true ->
  (forall k, commit_fails env k = false) ->
  exists w',
    initial_setup env w = (w', Ok tt, evs)
    /\ contents (database w') = upsert_all (prepare_records formatted) []
    /\ backup_flag w' = Some (now env, nrows formatted).
Proof.
  intros Hc Hf He Hfmt Hne W C. unfold initial_setup.
  cbn [database]. rewrite Hc, Hf, He, Hfmt.
  assert (exists t, init_database (database w) = StockDaily t /\ rows t = [])
    as (t & Ht & Hr).
  { unfold check_data_exists in Hc.
    destruct (init_database (database w)) as [| |t] eqn:E; simpl in Hc;
      try discriminate.
    - destruct (database w); discriminate.
    - exists t. split; [reflexivity|].
      destruct (rows t); [reflexivity|discriminate]. }
  unfold save_data. rewrite Hne.
  destruct (save_records_ok env (prepare_records formatted) 1000
              (mkWorld (init_database (database w)) (backup_flag w)) t
              ltac:(lia) Ht W C) as (t' & -> & Ct).
  eexists. split; [reflexivity|]. simpl.
  rewrite Ct. unfold table_contents. rewrite Hr. simpl.
  split; [reflexivity|].
  unfold prepare_records. now rewrite length_map, length_seq.
Qed.

Lemma initial_setup_bootstraps_witness :
  exists w',
    initial_setup live_env (mkWorld NoFile None)
    = (w', Ok tt, snd (DataFetcher.fetch_all_stock_data live_env 365 (1 # 10)))
    /\ row_count (database w') = 2
    /\ backup_flag w' = Some (700, 2).
Proof.
  destruct (initial_setup_bootstraps live_env (mkWorld NoFile None)
              (concat [setcol "股票代码" [Str "000001"] one_bar;
                       setcol "股票代码" [Str "000002"] one_bar])
              (snd (DataFetcher.fetch_all_stock_data live_env 365 (1 # 10)))
              [("trade_date", [Str "20240110"; Str "20240110"]);
               ("ts_code", [Str "000001"; Str "000002"]);
               ("open", [Num (10 # 1); Num (10 # 1)]);
               ("close", [Num (11 # 1); Num (11 # 1)]);
               ("high", [Num (12 # 1); Num (12 # 1)]);
               ("low", [Num (9 # 1); Num (9 # 1)]);
               ("volume", [Num (1000 # 1); Num (1000 # 1)]);
               ("amount", [Num (10000 # 1); Num (10000 # 1)])])
    as (w' & E & Cn & F); try reflexivity.
  exists w'. split; [exact E|]. split; [|exact F].
  unfold row_count. rewrite Cn. reflexivity.
Defined.

(** X26.  [restore_all_data] keeps no old row: on a table, whatever the provider,
    the formatter and the storage layer do afterwards, every row left in
    the table was inserted by this call, with an id above the counter of
    before (the purge is committed before anything is fetched). *)
Theorem restore_keeps_no_old_row env w t :
  database w = StockDaily t ->
  exists t',
    database (fst (fst (restore_all_data env w))) = StockDaily t'
    /\ Forall (fun r => last_id t < id r) (rows t').
Proof.
  intros Hdb. unfold restore_all_data. rewrite Hdb. simpl.
  set (w1 := mkWorld (StockDaily (delete_all t)) (backup_flag w)).
  assert (P0 : exists t', database w1 = StockDaily t'
                          /\ Forall (fun r => last_id t < id r) (rows t')).
  { exists (delete_all t). split; [reflexivity|constructor]. }
  destruct (DataFetcher.fetch_all_stock_data env 365 (1 # 10)) as [[all_data|e] evs];
    [|exact P0].
  destruct (empty all_data); [exact P0|].
  destruct (DataFetcher.format_data_for_storage env all_data) as [f|e]; [|exact P0].
  destruct (save_data_invariant
              (fun t' => Forall (fun r => last_id t < id r) (rows t')
                         /\ last_id t <= last_id t')
              env f 1000 w1 (delete_all t)) as (t' & E & F & _).
  - intros ts b t1 t2 _ (F & L) Ins.
    apply insert_ok_inv in Ins as (c & d & _ & _ & _ & ->). simpl.
    split; [|lia]. rewrite Forall_forall in *. intros r I.
    apply in_app_or in I as [I|[<-|[]]].
    + apply filter_In in I as [I _]. now apply F.
    + simpl. lia.
  - reflexivity.
  - split; [constructor|simpl; lia].
  - exists t'.
    destruct (save_data env f 1000 w1) as [w2 [[]|e]]; simpl in *; now split.
Qed.

Lemma restore_keeps_no_old_row_witness :
  exists t',
    database (fst (fst (restore_all_data raising_env stale_world))) = StockDaily t'
    /\ Forall (fun r => 4 < id r) (rows t').
Proof.
  exact (restore_keeps_no_old_row raising_env stale_world _ eq_refl).
Defined.

(** X27.  The daily job on a storage whose instruments are all current: no call
    of the provider, the world as before, and one report printed, that of
    [validate_data] on the unchanged storage. *)
Theorem daily_job_on_current_storage env w t :
  database w = StockDaily t ->
  (forall code, In code (known_instruments t) ->
                current (database w) (strftime env (today env - 1)) code) ->
  exists report,
    validate_data env (database w) = Ok report
    /\ daily_job env w = (mkRun w [] [report], Ok tt).
Proof.
  intros Hdb H.
  destruct (validate_data_with_ok (checks env) (database w)) as (r & E).
  exists r. split; [exact E|].
  assert (U : update_incremental_data env 1 w = (w, Ok false, [])).
  { unfold update_incremental_data. rewrite Hdb in *. simpl.
    fold (known_instruments t).
    destruct (known_instruments t) as [|c codes] eqn:K; [reflexivity|].
    now rewrite (LoopsMore.update_loop_current env (StockDaily t) _ _ (c :: codes) H). }
  unfold daily_job, try_except, bind, run_update, run_validation. simpl.
  rewrite U. simpl. unfold validate_data. rewrite E. reflexivity.
Qed.

Lemma daily_job_on_current_storage_witness :
  exists report,
    validate_data live_env (database current_world) = Ok report
    /\ daily_job live_env current_world = (mkRun current_world [] [report], Ok tt).
Proof.
  apply (daily_job_on_current_storage live_env current_world
           (mkTable [bar_row 4 "000003" "20240109"] 4) eq_refl).
  intros code [<-|[]]. exists "20240109". split; reflexivity.
Defined.

End MainMore.
